(** * Summurfy: the Gmail extractor, the widget and the summary client

    A shallow embedding of [extension/content.js].  Strings are sequences of
    UTF-16 code units, the page is the list of its elements in document
    order, JavaScript values that may be [null] or [undefined] are kept
    dynamic, and a [throw] is a result of its own, so that "this function
    never raises" is a statement that can be proved or refuted. *)

From Stdlib Require Import ZArith NArith List Bool String Ascii Lia.
From Stdlib Require Import Numbers.DecimalString.
Import ListNotations.
Local Open Scope bool_scope.

(* ================================================================== *)
(** ** JavaScript strings, values and completions *)
(* ================================================================== *)

Module JS.

(** A string is its sequence of UTF-16 code units; the regular
    expressions of the source carry no [u] flag, so they see code units. *)
Definition str := list N.

Definition lit (s : string) : str := map N_of_ascii (list_ascii_of_string s).

Definition inRange (lo hi c : N) : bool := ((lo <=? c) && (c <=? hi))%N.

(** [\s] of a regular expression and the set stripped by
    [String.prototype.trim]: WhiteSpace and LineTerminator. *)
Definition isWhiteSpace (c : N) : bool :=
  (inRange 0x09 0x0D c || (c =? 0x20) || (c =? 0xA0) || (c =? 0x1680)
   || inRange 0x2000 0x200A c || (c =? 0x2028) || (c =? 0x2029)
   || (c =? 0x202F) || (c =? 0x205F) || (c =? 0x3000) || (c =? 0xFEFF))%N.

(** [/[\u0000-\u001F\u007F-\u009F]/] *)
Definition isControl (c : N) : bool := inRange 0x00 0x1F c || inRange 0x7F 0x9F c.

(** [/[\u200B-\u200D\uFEFF]/] *)
Definition isZeroWidth (c : N) : bool := (inRange 0x200B 0x200D c || (c =? 0xFEFF))%N.

(** [/\u00A0/] *)
Definition isNbsp (c : N) : bool := (c =? 0xA0)%N.

Definition SPACE : N := 0x20%N.

Fixpoint trimStart (s : str) : str :=
  match s with
  | [] => []
  | c :: t => if isWhiteSpace c then trimStart t else s
  end.

Fixpoint trimEnd (s : str) : str :=
  match s with
  | [] => []
  | c :: t =>
      match trimEnd t with
      | [] => if isWhiteSpace c then [] else [c]
      | t' => c :: t'
      end
  end.

(** [s.trim()] *)
Definition trim (s : str) : str := trimEnd (trimStart s).

(** [s.replace(/[class]/g, '')] *)
Definition removeAll (p : N -> bool) (s : str) : str :=
  filter (fun c => negb (p c)) s.

(** [s.replace(/[class]/g, r)] for a one-unit replacement [r] *)
Definition replaceEach (p : N -> bool) (r : N) (s : str) : str :=
  map (fun c => if p c then r else c) s.

(** [s.replace(/[class]+/g, r)]: every maximal run of the class becomes
    one [r]; [inRun] tells that the unit before was in the class. *)
Fixpoint replaceRuns (p : N -> bool) (r : N) (inRun : bool) (s : str) : str :=
  match s with
  | [] => []
  | c :: t =>
      if p c
      then (if inRun then replaceRuns p r true t else r :: replaceRuns p r true t)
      else c :: replaceRuns p r false t
  end.

(** Values that the source handles without knowing their type. *)
Inductive val : Type :=
| Undefined
| Null
| Str (s : str).

Definition truthy (v : val) : bool :=
  match v with
  | Str (_ :: _) => true
  | _ => false
  end.

(** [a || b] *)
Definition or (a b : val) : val := if truthy a then a else b.

Record Error : Type := mkError { name : string; message : string }.

Inductive completion (A : Type) : Type :=
| Normal (a : A)
| Throw (e : Error).
Arguments Normal {A} a.
Arguments Throw {A} e.

Definition bind {A B : Type} (c : completion A) (k : A -> completion B) : completion B :=
  match c with
  | Normal a => k a
  | Throw e => Throw e
  end.

(** [try { body } catch (error) { handler }] *)
Definition tryCatch {A : Type} (body : completion A) (handler : Error -> completion A)
  : completion A :=
  match body with
  | Normal a => Normal a
  | Throw e => handler e
  end.

Definition TypeError (m : string) : Error := mkError "TypeError" m.

(** A string method called on a value: a [TypeError] on [null] and
    [undefined], the method's result on a string. *)
Definition invoke (method : str -> str) (v : val) : completion val :=
  match v with
  | Str s => Normal (Str (method s))
  | _ => Throw (TypeError "Cannot read properties of undefined")
  end.

(** A value inside a template literal *)
Definition toString (v : val) : str :=
  match v with
  | Undefined => lit "undefined"
  | Null => lit "null"
  | Str s => s
  end.

(** A number inside a template literal *)
Definition ofZ (z : Z) : string := NilEmpty.string_of_int (Z.to_int z).

(** [str.includes(needle)] on error messages *)
Definition includes (needle hay : string) : bool :=
  match String.index 0 needle hay with
  | Some _ => true
  | None => false
  end.

End JS.

Declare Scope js_scope.
Delimit Scope js_scope with js.
Notation "x <- c ;; k" := (JS.bind c (fun x => k))
  (at level 61, c at next level, right associativity) : js_scope.
Local Open Scope js_scope.

(* ================================================================== *)
(** ** The page *)
(* ================================================================== *)

Module Dom.

(** An element as the extractor sees it.  [innerText] is [None] on an
    element that is no [HTMLElement] (the property is then
    [undefined]); [textContent] of an element is always a string. *)
Record Element : Type := mkElement {
  tagName : string;
  classList : list string;
  attributes : list (string * JS.str);
  textContent : JS.str;
  innerText : option JS.str
}.

(** The document: its elements in document order. *)
Definition Document := list Element.

Inductive AttrTest : Type :=
| HasAttr (n : string)                   (* [n] *)
| AttrIs (n : string) (v : JS.str).      (* [n="v"] *)

(** A compound selector: [tag.class[attr]...] *)
Record Selector : Type := mkSelector {
  selTag : option string;
  selClasses : list string;
  selAttrs : list AttrTest
}.

Fixpoint lookupAttr (n : string) (l : list (string * JS.str)) : option JS.str :=
  match l with
  | [] => None
  | (k, v) :: t => if String.eqb k n then Some v else lookupAttr n t
  end.

Definition str_eqb (a b : JS.str) : bool :=
  if list_eq_dec N.eq_dec a b then true else false.

Definition attrHolds (e : Element) (t : AttrTest) : bool :=
  match t with
  | HasAttr n => match lookupAttr n (attributes e) with Some _ => true | None => false end
  | AttrIs n v =>
      match lookupAttr n (attributes e) with
      | Some w => str_eqb w v
      | None => false
      end
  end.

Definition matches (s : Selector) (e : Element) : bool :=
  match selTag s with
  | Some t => String.eqb t (tagName e)
  | None => true
  end
  && forallb (fun c => existsb (String.eqb c) (classList e)) (selClasses s)
  && forallb (attrHolds e) (selAttrs s).

(** [document.querySelector(s)]: the first match in document order *)
Definition querySelector (s : Selector) (d : Document) : option Element :=
  find (matches s) d.

(** [document.querySelectorAll(s)] *)
Definition querySelectorAll (s : Selector) (d : Document) : list Element :=
  filter (matches s) d.

(** [el.getAttribute(n)]: [null] when the attribute is absent *)
Definition getAttribute (n : string) (e : Element) : JS.val :=
  match lookupAttr n (attributes e) with
  | Some v => JS.Str v
  | None => JS.Null
  end.

(** [el?.m()] *)
Definition optCall (m : Element -> JS.val) (el : option Element) : JS.val :=
  match el with
  | Some e => m e
  | None => JS.Undefined
  end.

(** [a || b] on element references *)
Definition orElse (a b : option Element) : option Element :=
  match a with
  | Some _ => a
  | None => b
  end.

(** ["h2.hP"] *)
Definition h2_hP : Selector := mkSelector (Some "h2"%string) ["hP"%string] [].
(** ['[role="heading"][data-thread-perm-id]'] *)
Definition heading_thread : Selector :=
  mkSelector None []
    [AttrIs "role" (JS.lit "heading"); HasAttr "data-thread-perm-id"].
(** ["span.gD"] *)
Definition span_gD : Selector := mkSelector (Some "span"%string) ["gD"%string] [].
(** ["div.a3s"] *)
Definition div_a3s : Selector := mkSelector (Some "div"%string) ["a3s"%string] [].

End Dom.

(* ================================================================== *)
(** ** The extractor (content.js, lines 1-88) *)
(* ================================================================== *)

Module Extractor.
Import Dom.

(** [const text = el => (el && el.textContent ? el.textContent.trim() : "")] *)
Definition text (el : option Element) : JS.str :=
  match el with
  | Some e =>
      if JS.truthy (JS.Str (textContent e))
      then JS.trim (textContent e)
      else []
  | None => []
  end.

(** The three [replace] calls and the [trim] of [getSubject], lines 26-30 *)
Definition cleanSubject (v : JS.val) : JS.completion JS.val :=
  a <- JS.invoke (JS.removeAll JS.isControl) v ;;
  b <- JS.invoke (JS.removeAll JS.isZeroWidth) a ;;
  c <- JS.invoke (JS.replaceEach JS.isNbsp JS.SPACE) b ;;
  JS.invoke JS.trim c.

Definition getSubject (d : Document) : JS.completion JS.val :=
  let el := orElse (querySelector h2_hP d) (querySelector heading_thread d) in
  let subjectText := JS.Str (text el) in
  JS.tryCatch
    (cleanSubject subjectText)
    (fun _ => JS.Normal (JS.or subjectText (JS.Str []))).

Record Sender : Type := mkSender { name : JS.val; email : JS.val }.

(** The chain of [getSender], lines 47-51 *)
Definition cleanName (v : JS.val) : JS.completion JS.val :=
  a <- JS.invoke (JS.removeAll JS.isControl) v ;;
  b <- JS.invoke (JS.removeAll JS.isZeroWidth) a ;;
  c <- JS.invoke (JS.replaceEach JS.isNbsp JS.SPACE) b ;;
  JS.invoke JS.trim c.

Definition getSender (d : Document) : JS.completion Sender :=
  let el := querySelector span_gD d in
  let name := JS.or (optCall (getAttribute "name") el) (JS.Str (text el)) in
  let email :=
    JS.or (JS.or (optCall (getAttribute "email") el)
                 (optCall (getAttribute "data-hovercard-id") el))
          (JS.Str []) in
  JS.tryCatch
    (cleanName' <- cleanName name ;;
     JS.Normal (mkSender (JS.or cleanName' (JS.Str [])) (JS.or email (JS.Str []))))
    (fun _ => JS.Normal (mkSender (JS.or name (JS.Str [])) (JS.or email (JS.Str [])))).

(** [bodies[bodies.length - 1]]: [undefined] on the empty array *)
Definition lastOf {A : Type} (l : list A) : option A :=
  nth_error l (List.length l - 1).

(** The chain of [getBody], lines 71-76 *)
Definition cleanBody (v : JS.val) : JS.completion JS.val :=
  a <- JS.invoke (JS.removeAll JS.isControl) v ;;
  b <- JS.invoke (JS.removeAll JS.isZeroWidth) a ;;
  c <- JS.invoke (JS.replaceEach JS.isNbsp JS.SPACE) b ;;
  e <- JS.invoke (JS.replaceRuns JS.isWhiteSpace JS.SPACE false) c ;;
  JS.invoke JS.trim e.

Definition innerTextOf (e : Element) : JS.val :=
  match innerText e with
  | Some s => JS.Str s
  | None => JS.Undefined
  end.

Definition getBody (d : Document) : JS.completion JS.val :=
  let bodies := querySelectorAll div_a3s d in
  match lastOf bodies with
  | None => JS.Normal (JS.Str [])
  | Some last =>
      JS.tryCatch
        (bodyText <- JS.invoke JS.trim (innerTextOf last) ;;
         cleanBody bodyText)
        (fun _ => JS.Normal (JS.Str []))
  end.

(** [!!(document.querySelector("h2.hP") || document.querySelector("div.a3s"))] *)
Definition isMessageOpen (d : Document) : bool :=
  match orElse (querySelector h2_hP d) (querySelector div_a3s d) with
  | Some _ => true
  | None => false
  end.

(** [{ subject, sender, body }] as built in [autoReadCurrentEmail],
    lines 637-639, and in the EXTRACT_EMAIL handler, lines 950-952 *)
Record EmailData : Type := mkEmailData {
  subject : JS.val;
  sender : Sender;
  body : JS.val
}.

Definition extract (d : Document) : JS.completion EmailData :=
  subject <- getSubject d ;;
  sender <- getSender d ;;
  body <- getBody d ;;
  JS.Normal (mkEmailData subject sender body).

End Extractor.

(* ================================================================== *)
(** ** The widget and the globals it keeps on [window] *)
(* ================================================================== *)

Module Widget.
Import Dom Extractor.

Inductive Glyph : Type := Microphone | PlayGlyph | PauseGlyph | SpeakerGlyph.

(** [#sumurfy-icon]: its classes and the svg inside [.icon-text] *)
Record Icon : Type := mkIcon {
  active : bool;
  loading : bool;
  progress : bool;
  glyph : Glyph
}.

(** [result.speech], kept in [window.speechData] *)
Record Speech : Type := mkSpeech { audioFile : JS.val }.

(** An [Audio] element: its source and whether it is paused *)
Record Audio : Type := mkAudio { src : JS.str; paused : bool }.

Record State : Type := mkState {
  icon : option Icon;               (* document.getElementById('sumurfy-icon') *)
  download : option bool;           (* #sumurfy-download, [true] when displayed *)
  speechData : option Speech;       (* window.speechData *)
  currentAudio : option Audio;      (* window.currentAudio *)
  isPlaying : bool;                 (* window.isPlaying *)
  isPaused : bool                   (* window.isPaused *)
}.

Definition withIcon (f : Icon -> Icon) (s : State) : State :=
  mkState (option_map f (icon s)) (download s) (speechData s) (currentAudio s)
          (isPlaying s) (isPaused s).

Definition withDownload (b : bool) (s : State) : State :=
  mkState (icon s) (option_map (fun _ => b) (download s)) (speechData s)
          (currentAudio s) (isPlaying s) (isPaused s).

Definition withSpeech (d : option Speech) (s : State) : State :=
  mkState (icon s) (download s) d (currentAudio s) (isPlaying s) (isPaused s).

Definition withAudio (a : option Audio) (s : State) : State :=
  mkState (icon s) (download s) (speechData s) a (isPlaying s) (isPaused s).

Definition withFlags (playing paused : bool) (s : State) : State :=
  mkState (icon s) (download s) (speechData s) (currentAudio s) playing paused.

Definition setActive (b : bool) (i : Icon) : Icon := mkIcon b (loading i) (progress i) (glyph i).
Definition setLoading (b : bool) (i : Icon) : Icon := mkIcon (active i) b (progress i) (glyph i).
Definition setProgress (b : bool) (i : Icon) : Icon := mkIcon (active i) (loading i) b (glyph i).
Definition setGlyph (g : Glyph) (i : Icon) : Icon := mkIcon (active i) (loading i) (progress i) g.

Definition hasClass (c : Icon -> bool) (s : State) : bool :=
  match icon s with
  | Some i => c i
  | None => false
  end.

(** [window.speechData && window.speechData.audioFile] *)
Definition hasAudioFile (s : State) : bool :=
  match speechData s with
  | Some d => JS.truthy (audioFile d)
  | None => false
  end.

Definition showDownloadButton (s : State) : State := withDownload true s.
Definition hideDownloadButton (s : State) : State := withDownload false s.

Definition updateIconToPlay (s : State) : State :=
  match icon s with
  | None => s
  | Some _ => showDownloadButton (withIcon (setGlyph PlayGlyph) s)
  end.

Definition updateIconToPause (s : State) : State :=
  match icon s with
  | None => s
  | Some _ => showDownloadButton (withIcon (setGlyph PauseGlyph) s)
  end.

Definition updateIconToSpeaker (s : State) : State :=
  match icon s with
  | None => s
  | Some _ => hideDownloadButton (withIcon (setGlyph SpeakerGlyph) s)
  end.

(** [updateCircularProgress(0)], the only call outside the [timeupdate]
    listener: the [else] branch, which drops class [progress] *)
Definition updateCircularProgress0 (s : State) : State := withIcon (setProgress false) s.

Definition pauseAudio (a : Audio) : Audio := mkAudio (src a) true.
Definition playAudio (a : Audio) : Audio := mkAudio (src a) false.

(** lines 900-927 *)
Definition resetWidgetState (s : State) : State :=
  let s := withIcon (fun i => setProgress false (setLoading false (setActive false i))) s in
  let s := withAudio None s in
  let s := withFlags false false s in
  let s := updateCircularProgress0 s in
  let s := updateIconToSpeaker s in
  hideDownloadButton s.

(** lines 283-335; [new Audio(url)] starts paused and [play()] starts it *)
Definition handlePlayPause (s : State) : State :=
  if negb (hasAudioFile s) then s
  else
    match currentAudio s with
    | Some a =>
        if isPlaying s then
          updateIconToPlay (withFlags false true (withAudio (Some (pauseAudio a)) s))
        else if isPaused s then
          updateIconToPause (withFlags true false (withAudio (Some (playAudio a)) s))
        else
          updateIconToPause (withFlags true false (withAudio (Some (playAudio a)) s))
    | None =>
        let url := match speechData s with
                   | Some d => JS.toString (audioFile d)
                   | None => []
                   end in
        updateIconToPause
          (withFlags true false (withAudio (Some (playAudio (mkAudio url true))) s))
    end.

(** The widget as [createSumurfyWidget] leaves it (lines 179-231):
    the injected markup, then [resetWidgetState]. *)
Definition created : State :=
  resetWidgetState
    (mkState (Some (mkIcon false false false Microphone)) (Some true) None None false false).

End Widget.

(* ================================================================== *)
(** ** The world of the content script *)
(* ================================================================== *)

Module World.
Import Dom Extractor Widget.

(** What the script does towards the outside.  Within a handler and
    within an episode the events stand in the order they happen; the
    requests of an episode are entered together when it settles. *)
Inductive Event : Type :=
| EvGenerateSummary (emailContent : JS.str)       (* generateSummary(emailData) is called *)
| EvGetHealth                                     (* fetch GET /health *)
| EvXhrSend                                       (* xhr.send() of the fallback GET /health *)
| EvPostSummarize (attempt : nat) (emailContent : JS.str)   (* fetch POST /summarize *)
| EvWait (ms : Z)                                 (* await setTimeout(resolve, delay) *)
| EvCouldNotRead                                  (* 'Could not read this email. ...' *)
| EvReset                                         (* resetWidgetStateForEmailChange() *)
| EvSetTimeoutAutoRead.                           (* setTimeout(() => autoReadCurrentEmail, 1000) *)

Record World : Type := mkWorld {
  widget : Widget.State;
  currentEmailId : JS.str;        (* the variable of setupEmailChangeDetection *)
  inFlight : list EmailData;      (* generateSummary calls begun and not yet settled *)
  timers : nat;                   (* auto-read timeouts set and not yet fired *)
  log : list Event
}.

Definition withWidget (f : Widget.State -> Widget.State) (w : World) : World :=
  mkWorld (f (widget w)) (currentEmailId w) (inFlight w) (timers w) (log w).

Definition withEmailId (id : JS.str) (w : World) : World :=
  mkWorld (widget w) id (inFlight w) (timers w) (log w).

Definition withInFlight (l : list EmailData) (w : World) : World :=
  mkWorld (widget w) (currentEmailId w) l (timers w) (log w).

Definition withTimers (n : nat) (w : World) : World :=
  mkWorld (widget w) (currentEmailId w) (inFlight w) n (log w).

Definition logged (e : Event) (w : World) : World :=
  mkWorld (widget w) (currentEmailId w) (inFlight w) (timers w) (log w ++ [e]).

(** Code that changes the world and may throw: the state survives a throw. *)
Definition M (A : Type) : Type := World -> JS.completion A * World.

Definition ret {A : Type} (a : A) : M A := fun w => (JS.Normal a, w).

Definition throw {A : Type} (e : JS.Error) : M A := fun w => (JS.Throw e, w).

Definition bindM {A B : Type} (m : M A) (k : A -> M B) : M B :=
  fun w =>
    match m w with
    | (JS.Normal a, w') => k a w'
    | (JS.Throw e, w') => (JS.Throw e, w')
    end.

Definition catchM {A : Type} (m : M A) (handler : JS.Error -> M A) : M A :=
  fun w =>
    match m w with
    | (JS.Normal a, w') => (JS.Normal a, w')
    | (JS.Throw e, w') => handler e w'
    end.

Definition emit (e : Event) : M unit := fun w => (JS.Normal tt, logged e w).

Definition onWidget (f : Widget.State -> Widget.State) : M unit :=
  fun w => (JS.Normal tt, withWidget f w).

Definition lift {A : Type} (c : JS.completion A) : M A := fun w => (c, w).

End World.

Declare Scope world_scope.
Delimit Scope world_scope with world.
Notation "x <-- c ;; k" := (World.bindM c (fun x => k))
  (at level 61, c at next level, right associativity) : world_scope.
Notation "c ;;; k" := (World.bindM c (fun _ => k))
  (at level 61, right associativity) : world_scope.
Local Open Scope world_scope.

(* ================================================================== *)
(** ** The summary client: [generateSummary] (lines 656-846) *)
(* ================================================================== *)

Module Client.
Import Dom Extractor Widget World.
Local Open Scope string_scope.

(** The JSON body of a [/summarize] response, as far as it is read *)
Record SummaryResult : Type := mkResult {
  success : bool;                 (* truthiness of [result.success] *)
  speech : option Speech;         (* [result.speech], when it is an object *)
  error : JS.val
}.

Record Response : Type := mkResponse {
  status : Z;
  json : JS.completion SummaryResult      (* [await response.json()] *)
}.

(** [response.ok] *)
Definition ok (r : Response) : bool := ((200 <=? status r) && (status r <=? 299))%Z.

(** How a request ends.  A request that never ends has no outcome: the
    code sets no working timeout ([timeout: 30000] is no option of
    [fetch]), so an episode with such a request stays among the pending
    calls of the world and is never settled. *)
Inductive FetchOutcome : Type :=
| Resolved (r : Response)
| Rejected (e : JS.Error).

Inductive XhrOutcome : Type :=
| XhrStatus (s : Z)
| XhrFails (e : JS.Error).

(** What the backend and the network do in an episode all of whose
    requests end: the answer to the probe, the answer a fallback request
    would get, and the answer to the k-th POST (k = 1, 2, 3). *)
Record Network : Type := mkNetwork {
  health : FetchOutcome;
  xhrHealth : XhrOutcome;
  summarize : nat -> FetchOutcome
}.

Definition fetchHealth (net : Network) : M Response :=
  emit EvGetHealth ;;;
  match health net with
  | Resolved r => ret r
  | Rejected e => throw e
  end.

Record Xhr : Type := mkXhr { timeout : Z; xstatus : Z }.

(** [xhr.open(method, url, async)] of a document.  The XMLHttpRequest
    standard, open(): "If async is false, the current global object is a
    Window object, and either this's timeout is not 0 or this's response
    type is not the empty string, then throw an InvalidAccessError
    DOMException."  A content script runs with a Window as its global. *)
Definition xhrOpen (async : bool) (x : Xhr) : M Xhr :=
  if negb async && negb (timeout x =? 0)%Z
  then throw (JS.mkError "InvalidAccessError"
                "Synchronous requests from a document must not set a timeout.")
  else ret x.

Definition xhrSend (net : Network) (x : Xhr) : M Xhr :=
  emit EvXhrSend ;;;
  match xhrHealth net with
  | XhrStatus s => ret (mkXhr (timeout x) s)
  | XhrFails e => throw e
  end.

Definition newError (m : string) : JS.Error := JS.mkError "Error" m.

(** The class changes of the failure paths: [icon.classList.remove('loading')],
    [icon.classList.remove('active')] *)
Definition dropLoadingActive (s : Widget.State) : Widget.State :=
  withIcon (fun i => setActive false (setLoading false i)) s.

(** lines 671-728: the value of [serverAvailable], or the error thrown.
    [showStatus] only writes to the console and tints
    [icon.style.background] for two seconds; inline style is not part
    of the state. *)
Definition probeServer (net : Network) : M bool :=
  catchM
    (testResponse <-- fetchHealth net ;;
     if ok testResponse then ret true
     else throw (newError ("Server responded with status: " ++ JS.ofZ (status testResponse))))
    (fun testError =>
       if String.eqb (JS.name testError) "TypeError"
          && JS.includes "Failed to fetch" (JS.message testError)
       then
         onWidget (fun s => updateIconToSpeaker (dropLoadingActive s)) ;;;
         throw (newError
           "Server not accessible. Please start the Flask server with: python server.py")
       else
         catchM
           (xhr <-- xhrOpen false (mkXhr 5000 0) ;;
            xhr <-- xhrSend net xhr ;;
            if (xstatus xhr =? 200)%Z then ret true
            else throw (newError ("XMLHttpRequest failed: " ++ JS.ofZ (xstatus xhr))))
           (fun xhrError =>
              throw (newError ("Cannot connect to server: " ++ JS.message testError)))).

(** The variables of the retry loop that outlive it *)
Record LoopVars : Type := mkVars {
  response : option Response;
  lastError : option JS.Error
}.

(** lines 739-779, by recursion on [retries]; the attempt made with
    [retries] left is attempt [4 - retries]. *)
Fixpoint retryLoop (net : Network) (emailContent : JS.str) (retries : nat) (v : LoopVars)
  : M LoopVars :=
  match retries with
  | O => ret v
  | S retries' =>
      let caught (fetchError : JS.Error) (v : LoopVars) : M LoopVars :=
        let v := mkVars (response v) (Some fetchError) in
        if (0 <? retries')%nat then
          emit (EvWait (2 ^ (3 - Z.of_nat retries') * 1000)) ;;;
          retryLoop net emailContent retries' v
        else throw fetchError in
      emit (EvPostSummarize (4 - retries) emailContent) ;;;
      match summarize net (4 - retries) with
      | Rejected e => caught e v
      | Resolved r =>
          let v := mkVars (Some r) (lastError v) in
          if ok r then ret v
          else caught (newError ("HTTP error! status: " ++ JS.ofZ (status r))) v
      end
  end.

(** lines 790-826: what a parsed response does to the widget *)
Definition applyResult (result : SummaryResult) (s : Widget.State) : Widget.State :=
  if success result then
    let s := withIcon (setLoading false) s in
    match speech result with
    | Some sp =>
        if JS.truthy (audioFile sp)
        then updateIconToPlay (updateIconToSpeaker (withSpeech (Some sp) s))
        else s
    | None => s
    end
  else
    updateCircularProgress0 (updateIconToSpeaker (dropLoadingActive s)).

(** lines 836-844: the outer [catch] *)
Definition showFailure (s : Widget.State) : Widget.State :=
  updateCircularProgress0 (updateIconToSpeaker (dropLoadingActive s)).

(** line 664 *)
Definition emailContentOf (emailData : EmailData) : JS.str :=
  (JS.lit "Subject: " ++ JS.toString (subject emailData) ++ [10%N]
   ++ JS.lit "From: " ++ JS.toString (name (sender emailData))
   ++ (if JS.truthy (email (sender emailData))
       then JS.lit " <" ++ JS.toString (email (sender emailData)) ++ JS.lit ">"
       else [])
   ++ [10%N; 10%N] ++ JS.toString (body emailData))%list.

Definition allFailed (v : LoopVars) : JS.Error :=
  newError ("All retry attempts failed. Last error: "
            ++ match lastError v with
               | Some e => if (JS.message e =? "")%string then "Unknown error" else JS.message e
               | None => "Unknown error"
               end).

(** The body of [generateSummary]; it runs when the call settles. *)
Definition generateSummary (net : Network) (emailData : EmailData) : M unit :=
  catchM
    (let emailContent := emailContentOf emailData in
     serverAvailable <-- probeServer net ;;
     if negb serverAvailable then throw (newError "Server is not available")
     else
       v <-- retryLoop net emailContent 3 (mkVars None None) ;;
       match response v with
       | Some r =>
           if ok r then
             result <-- lift (json r) ;;
             onWidget (applyResult result)
           else throw (allFailed v)
       | None => throw (allFailed v)
       end)
    (fun error => onWidget showFailure).

End Client.

(* ================================================================== *)
(** ** Handlers: clicks, auto-read, message-change detection *)
(* ================================================================== *)

Module Content.
Import Dom Extractor Widget World Client.

(** The host page at one moment: its document and the parameters of
    [window.location.search]. *)
Record Page : Type := mkPage {
  document : Document;
  search : list (string * JS.str)
}.

(** [urlParams.get(k)]: [null] when the parameter is absent *)
Definition urlParam (k : string) (p : Page) : JS.val :=
  match lookupAttr k (search p) with
  | Some v => JS.Str v
  | None => JS.Null
  end.

(** [generateSummary(emailData)] as the caller sees it: the call is
    begun and nothing of the widget changes before it settles.  The log
    is kept by episode: the call is logged here, the requests of the
    episode, the probe that the code sends before the call returns
    included, are logged in their order when the episode settles. *)
Definition beginSummary (emailData : EmailData) (w : World) : World :=
  logged (EvGenerateSummary (emailContentOf emailData))
         (withInFlight (inFlight w ++ [emailData]) w).

(** [!subject && !sender.name && !body], line 643 *)
Definition unreadable (d : EmailData) : bool :=
  negb (JS.truthy (subject d)) && negb (JS.truthy (name (sender d)))
  && negb (JS.truthy (body d)).

(** lines 615-654.  Were extraction to throw, the exception would leave
    the handler with the classes already set. *)
Definition autoReadCurrentEmail (p : Page) (w : World) : World :=
  if negb (isMessageOpen (document p)) then w
  else if hasAudioFile (widget w) then w
  else
    let w := withWidget (withIcon (fun i => setLoading true (setActive true i))) w in
    match extract (document p) with
    | JS.Throw _ => w
    | JS.Normal emailData =>
        if unreadable emailData then
          withWidget (withIcon (fun i => setLoading false (setActive false i)))
                     (logged EvCouldNotRead w)
        else beginSummary emailData w
    end.

(** lines 248-280 *)
Definition handleIconClick (p : Page) (w : World) : World :=
  match icon (widget w) with
  | None => w
  | Some i =>
      if active i then withWidget handlePlayPause w
      else if loading i then w
      else
        let w := withWidget (withIcon (fun i => setLoading true (setActive true i))) w in
        let w := withWidget (withSpeech None) w in
        autoReadCurrentEmail p w
  end.

Definition noEmail : JS.str := JS.lit "no-email".

(** lines 991-1016 *)
Definition getCurrentEmailId (p : Page) : JS.str :=
  if negb (isMessageOpen (document p)) then noEmail
  else
    let messageId := JS.or (urlParam "th" p) (urlParam "message_id" p) in
    if JS.truthy messageId then JS.toString messageId
    else
      let subjectEl := orElse (querySelector h2_hP (document p))
                              (querySelector heading_thread (document p)) in
      let senderEl := querySelector span_gD (document p) in
      match subjectEl, senderEl with
      | Some _, Some _ => (text subjectEl ++ JS.lit "-" ++ text senderEl)%list
      | _, _ => noEmail
      end.

(** lines 1027-1046 *)
Definition checkForEmailChange (p : Page) (w : World) : World :=
  let newEmailId := getCurrentEmailId p in
  if str_eqb newEmailId (currentEmailId w) then w
  else
    let w := withEmailId newEmailId w in
    let w := logged EvReset (withWidget resetWidgetState w) in
    if negb (str_eqb newEmailId noEmail)
    then logged EvSetTimeoutAutoRead (withTimers (S (timers w)) w)
    else w.

(** The callback of an auto-read timeout (lines 156-161 and 1039-1043) *)
Definition autoReadTimeout (p : Page) (w : World) : World :=
  match timers w with
  | O => w
  | S n =>
      let w := withTimers n w in
      if isMessageOpen (document p) then autoReadCurrentEmail p w else w
  end.

(** The i-th pending [generateSummary] call runs to its end against [net]. *)
Definition settle (i : nat) (net : Network) (w : World) : World :=
  match nth_error (inFlight w) i with
  | None => w
  | Some emailData =>
      let w := withInFlight (firstn i (inFlight w) ++ skipn (S i) (inFlight w)) w in
      snd (generateSummary net emailData w)
  end.

(** [initializeWidget] on a fresh page (lines 142-168): the widget is
    created, change detection remembers the identity, and a message
    that is already open gets an auto-read timeout.  The health checks
    of [createSumurfyWidget] and [showServerStatus] are left out. *)
Definition initializeWidget (p : Page) : World :=
  let w := mkWorld Widget.created (getCurrentEmailId p) [] 0 [] in
  if isMessageOpen (document p)
  then logged EvSetTimeoutAutoRead (withTimers 1 w)
  else w.

(** What can happen to the script, one callback at a time *)
Inductive Input : Type :=
| Click (p : Page)                       (* click on #sumurfy-icon *)
| Poll (p : Page)                        (* setInterval(checkForEmailChange, 1000) *)
| Mutation (p : Page)                    (* the observer's setTimeout(checkForEmailChange, 500) *)
| AutoReadTimeout (p : Page)
| Settles (i : nat) (net : Network).

Definition step (w : World) (i : Input) : World :=
  match i with
  | Click p => handleIconClick p w
  | Poll p => checkForEmailChange p w
  | Mutation p => checkForEmailChange p w
  | AutoReadTimeout p => autoReadTimeout p w
  | Settles i net => settle i net w
  end.

Definition run (w : World) (l : list Input) : World := fold_left step l w.

(** The widget is in Requesting while the icon carries class [loading]. *)
Definition requesting (w : World) : bool := hasClass loading (widget w).

Definition isPost (e : Event) : bool :=
  match e with
  | EvPostSummarize _ _ => true
  | _ => false
  end.

Definition isSummaryCall (e : Event) : bool :=
  match e with
  | EvGenerateSummary _ => true
  | _ => false
  end.

Definition waitOf (e : Event) : option Z :=
  match e with
  | EvWait ms => Some ms
  | _ => None
  end.

Fixpoint waits (l : list Event) : list Z :=
  match l with
  | [] => []
  | e :: t => match waitOf e with Some ms => ms :: waits t | None => waits t end
  end.

End Content.

(* ================================================================== *)
(** ** The extractor as the README documents it *)
(* ================================================================== *)

Module Readme.
Import Dom.

(** ['.hP'] *)
Definition dot_hP : Selector := mkSelector None ["hP"%string] [].

(** The loop of the README's [getSubject] (README.md, lines 323-339):
    the first selector whose element has non-empty trimmed text gives
    the subject, [''] when there is none. *)
Fixpoint firstWithText (selectors : list Selector) (d : Document) : JS.str :=
  match selectors with
  | [] => []
  | selector :: rest =>
      match querySelector selector d with
      | Some element =>
          match JS.trim (textContent element) with
          | [] => firstWithText rest d
          | t => t
          end
      | None => firstWithText rest d
      end
  end.

Definition getSubject (d : Document) : JS.str :=
  firstWithText [h2_hP; heading_thread; dot_hP] d.

End Readme.

(* ================================================================== *)
(** ** Properties of texts and of runs, and the pages of the scenarios *)
(* ================================================================== *)

Module Props.
Import Dom Extractor Widget World Client Content.

(** No control unit, no zero-width unit and no non-breaking space *)
Definition stripped (t : JS.str) : Prop :=
  Forall (fun c => JS.isControl c = false /\ JS.isZeroWidth c = false
                   /\ JS.isNbsp c = false) t.

(** Neither the first nor the last unit is white space *)
Definition trimmed (t : JS.str) : Prop :=
  (forall c, hd_error t = Some c -> JS.isWhiteSpace c = false)
  /\ (forall pre c, t = pre ++ [c] -> JS.isWhiteSpace c = false).

(** No white space follows white space; [prev] tells that the unit
    before the text is white space. *)
Fixpoint runsFree (prev : bool) (t : JS.str) : bool :=
  match t with
  | [] => true
  | c :: t' =>
      if JS.isWhiteSpace c then negb prev && runsFree true t'
      else runsFree false t'
  end.

(** Every white space is one plain space between two other units *)
Definition singleSpaced (t : JS.str) : Prop :=
  Forall (fun c => JS.isWhiteSpace c = true -> c = JS.SPACE) t
  /\ (forall pre c d post, t = pre ++ c :: d :: post ->
        JS.isWhiteSpace c = true -> JS.isWhiteSpace d = false).

(** The units every chain deletes: C0/C1 controls and zero-width units *)
Definition deleted (c : N) : bool := JS.isControl c || JS.isZeroWidth c.

(** In the words of the property: the units of [s] that are not deleted,
    each in its place, a non-breaking space turned into a space *)
Fixpoint keptUnits (s : JS.str) : JS.str :=
  match s with
  | [] => []
  | c :: t =>
      if deleted c then keptUnits t
      else (if JS.isNbsp c then JS.SPACE else c) :: keptUnits t
  end.

(** The probe of an episode fails: the request is rejected or the
    answer is not 2xx. *)
Definition healthFails (net : Network) : bool :=
  match health net with
  | Rejected _ => true
  | Resolved r => negb (ok r)
  end.

Definition isReset (e : Event) : bool :=
  match e with
  | EvReset => true
  | _ => false
  end.

Definition resets (w : World) : nat := List.length (filter isReset (log w)).

(** The state [autoReadCurrentEmail] ends in when nothing could be read *)
Definition extractionEmpty (w : World) : World :=
  withWidget (withIcon (fun i => setLoading false (setActive false i)))
    (logged EvCouldNotRead
       (withWidget (withIcon (fun i => setLoading true (setActive true i))) w)).


(** The state in which [autoReadCurrentEmail] begins a summary *)
Definition summaryBegun (d : EmailData) (w : World) : World :=
  beginSummary d
    (withWidget (withIcon (fun i => setLoading true (setActive true i))) w).

(** No callback of the list is the end of an episode: the requests of
    the pending calls are still out. *)
Definition noneSettles (l : list Input) : bool :=
  forallb (fun i => match i with Settles _ _ => false | _ => true end) l.

End Props.

Module Scenario.
Import Dom Extractor Widget World Client Content.
Local Open Scope string_scope.

(** An HTML element whose rendered text is its text content *)
Definition el (tag : string) (cls : list string) (attrs : list (string * JS.str))
           (txt : string) : Element :=
  mkElement tag cls attrs (JS.lit txt) (Some (JS.lit txt)).

(** [<h2 class="hP"></h2>] before
    [<div role="heading" data-thread-perm-id="t1">Hello</div>] *)
Definition emptyHeadingFirst : Document :=
  [ el "h2" ["hP"] [] "";
    el "div" [] [("role", JS.lit "heading"); ("data-thread-perm-id", JS.lit "t1")] "Hello" ].

Definition twoBodies : Document :=
  [ el "div" ["a3s"] [] "first message"; el "div" ["a3s"] [] "second message" ].

Definition inbox : Page := mkPage [] [].

Definition pageA : Page :=
  mkPage
    [ el "h2" ["hP"] [] "Invoice Due";
      el "span" ["gD"] [("name", JS.lit "Acme Billing"); ("email", JS.lit "billing@acme.com")]
         "Acme Billing";
      el "div" ["a3s"] [] "Please pay $500 by Friday." ]
    [("th", JS.lit "A")].

Definition pageB : Page :=
  mkPage
    [ el "h2" ["hP"] [] "Lunch";
      el "span" ["gD"] [("name", JS.lit "Bob")] "Bob";
      el "div" ["a3s"] [] "Noon?" ]
    [("th", JS.lit "B")].


Definition dataA : EmailData :=
  mkEmailData (JS.Str (JS.lit "Invoice Due"))
    (mkSender (JS.Str (JS.lit "Acme Billing")) (JS.Str (JS.lit "billing@acme.com")))
    (JS.Str (JS.lit "Please pay $500 by Friday.")).

Definition dataB : EmailData :=
  mkEmailData (JS.Str (JS.lit "Lunch"))
    (mkSender (JS.Str (JS.lit "Bob")) (JS.Str []))
    (JS.Str (JS.lit "Noon?")).

Definition speechA : Speech := mkSpeech (JS.Str (JS.lit "http://x/a.wav")).

Definition okResponse : Response :=
  mkResponse 200 (JS.Normal (mkResult true (Some speechA) JS.Undefined)).

Definition unavailable : Response :=
  mkResponse 503 (JS.Throw (JS.mkError "SyntaxError" "Unexpected token"))%string.

Definition failedToFetch : JS.Error := JS.TypeError "Failed to fetch".

(** The backend answers every request *)
Definition netUp : Network :=
  mkNetwork (Resolved okResponse) (XhrStatus 200) (fun _ => Resolved okResponse).

(** The first POST is rejected, the second answered 503, the third 200 *)
Definition netFlaky : Network :=
  mkNetwork (Resolved okResponse) (XhrStatus 200)
    (fun k => match k with
              | 1 => Rejected failedToFetch
              | 2 => Resolved unavailable
              | _ => Resolved okResponse
              end).

(** The probe is answered 503 while later requests would be answered 200 *)
Definition netProbe503 : Network :=
  mkNetwork (Resolved unavailable) (XhrStatus 200) (fun _ => Resolved okResponse).

Definition netDown : Network :=
  mkNetwork (Rejected failedToFetch) (XhrFails failedToFetch)
    (fun _ => Rejected failedToFetch).

End Scenario.

(* ================================================================== *)
(** ** Audio events and the messages of the popup
       (content.js, lines 472-502 and 931-981) *)
(* ================================================================== *)

Module Listeners.
Import Dom Extractor Widget World Client Content.
Local Open Scope string_scope.

(** The [ended] listener of [setupAudioEventListeners], lines 472-485 *)
Definition onEnded (s : Widget.State) : Widget.State :=
  let s := withFlags false false s in
  let s := match icon s with
           | Some _ =>
               updateCircularProgress0 (withIcon (setActive false) (updateIconToSpeaker s))
           | None => s
           end in
  showDownloadButton s.

(** The [error] listener, lines 487-502 *)
Definition onError (s : Widget.State) : Widget.State :=
  let s := withFlags false false s in
  let s := match icon s with
           | Some _ =>
               updateCircularProgress0
                 (withIcon (fun i => setLoading false (setActive false i))
                           (updateIconToSpeaker s))
           | None => s
           end in
  hideDownloadButton s.

(** [handleDownloadClick], lines 506-534: the [href] of the link that is
    clicked, when there is one *)
Definition handleDownloadClick (s : Widget.State) : option JS.str :=
  if negb (hasAudioFile s) then None
  else match speechData s with
       | Some d => Some (JS.toString (audioFile d))
       | None => None
       end.

(** The [canplay] listener, lines 443-463, up to the promise of
    [audio.play()].  The listener holds the element it was attached to:
    [current] tells that this element still is [window.currentAudio],
    [allowed] that [play()] starts it. *)
Definition onCanPlay (current allowed : bool) (s : Widget.State) : Widget.State :=
  let s := withIcon (setLoading false) s in
  if current && allowed then withAudio (option_map playAudio (currentAudio s)) s
  else s.

(** The [then] of that promise, lines 453-457 *)
Definition onPlayResolved (s : Widget.State) : Widget.State :=
  updateIconToPause (withFlags true false s).

(** The [catch] of that promise, lines 458-462 *)
Definition onPlayRejected (s : Widget.State) : Widget.State :=
  updateIconToPlay s.

(** The [timeupdate] listener, lines 465-470: [hasDuration] is the truth
    of [audio.duration], [positive] that of [progress > 0] *)
Definition onTimeUpdate (hasDuration positive : bool) (s : Widget.State) : Widget.State :=
  if hasDuration then withIcon (setProgress positive) s else s.

(** The callbacks of the page: those of [Content.step] and the listeners
    of the audio elements.  An element that was replaced or dropped keeps
    its listeners, so its events may come at any time; the two ends of
    the [play()] promise are taken as events of their own. *)
Inductive Callback : Type :=
| Handler (i : Input)
| AudioEnded
| AudioError
| AudioCanPlay (current allowed : bool)
| AudioPlayResolved
| AudioPlayRejected
| AudioTimeUpdate (hasDuration positive : bool).

Definition fire (w : World) (c : Callback) : World :=
  match c with
  | Handler i => step w i
  | AudioEnded => withWidget onEnded w
  | AudioError => withWidget onError w
  | AudioCanPlay current allowed => withWidget (onCanPlay current allowed) w
  | AudioPlayResolved => withWidget onPlayResolved w
  | AudioPlayRejected => withWidget onPlayRejected w
  | AudioTimeUpdate hasDuration positive => withWidget (onTimeUpdate hasDuration positive) w
  end.

Definition fireAll (w : World) (l : list Callback) : World := fold_left fire l w.

(** What [sendResponse] is given *)
Inductive Reply : Type :=
| Pong                              (* { ok: true, message: "Content script is loaded" } *)
| Failed (error : string)           (* { ok: false, error } *)
| Extracted (data : EmailData).     (* { ok: true, data: { subject, sender, body } } *)

(** The listener of [chrome.runtime.onMessage], lines 931-981, on a
    request of type [type]: the reply it sends, if any *)
Definition onMessage (type : string) (d : Document) : option Reply :=
  if String.eqb type "PING" then Some Pong
  else if String.eqb type "EXTRACT_EMAIL" then
    match
      (if negb (isMessageOpen d) then
         JS.Normal (Failed "No email open. Open a message in Gmail and try again.")
       else
         subject <- getSubject d ;;
         sender <- getSender d ;;
         body <- getBody d ;;
         if negb (JS.truthy subject) && negb (JS.truthy (name sender))
            && negb (JS.truthy body)
         then JS.Normal (Failed
           "Could not read this email. Gmail layout may have changed or the message is still loading.")
         else JS.Normal (Extracted (mkEmailData subject sender body)))%js
    with
    | JS.Normal r => Some r
    | JS.Throw e => Some (Failed ("Error reading email: " ++ JS.message e))
    end
  else None.

(** The widget states the callbacks keep to *)
Definition coherent (s : Widget.State) : Prop :=
  (speechData s = None \/ hasAudioFile s = true)
  /\ (hasClass loading s = true -> speechData s = None)
  /\ (isPlaying s = true -> isPaused s = false)
  /\ (isPaused s = true -> exists a, currentAudio s = Some a)
  /\ (exists i, icon s = Some i).

(** The events an episode may add to the log after its probe: none, or
    up to three POSTs of the same content with the waits between them *)
Definition episodeTraces (c : JS.str) : list (list Event) :=
  [ [];
    [EvPostSummarize 1 c];
    [EvPostSummarize 1 c; EvWait 2000; EvPostSummarize 2 c];
    [EvPostSummarize 1 c; EvWait 2000; EvPostSummarize 2 c; EvWait 4000;
     EvPostSummarize 3 c] ].

(** [checkServerStatus], lines 849-870: one GET of the health endpoint,
    [true] exactly when it is answered 2xx *)
Definition checkServerStatus (net : Network) : M bool :=
  catchM
    (response <-- fetchHealth net ;;
     if ok response then ret true else ret false)
    (fun error => ret false).

(** The world with [evs] added to its log *)
Definition appended (evs : list Event) (w : World) : World :=
  mkWorld (widget w) (currentEmailId w) (inFlight w) (timers w) (log w ++ evs).

(** The k-th POST of an episode is rejected or answered outside 2xx *)
Definition attemptFails (net : Network) (k : nat) : bool :=
  match summarize net k with
  | Rejected _ => true
  | Resolved r => negb (ok r)
  end.

Definition totalWait (l : list Event) : Z := fold_right Z.add 0%Z (waits l).

End Listeners.

(* ================================================================== *)
(** ** The background script (background.js) *)
(* ================================================================== *)

Module Background.
(** [injectedTabs], a [Set] of tab ids *)
Definition has (t : nat) (s : list nat) : bool := existsb (Nat.eqb t) s.

Definition add (t : nat) (s : list nat) : list nat := if has t s then s else s ++ [t].

Definition delete (t : nat) (s : list nat) : list nat :=
  filter (fun x => negb (Nat.eqb t x)) s.

Record State : Type := mkState {
  injectedTabs : list nat;
  pending : list nat;        (* injectWidget calls whose promise chain has not settled *)
  scripts : list nat         (* tabs in which content.js was executed, in order *)
}.

(** lines 15-32, up to the first promise *)
Definition injectWidget (tabId : nat) (st : State) : State :=
  mkState (injectedTabs st) (pending st ++ [tabId]) (scripts st).

(** The chain of the i-th pending call settles; [ok] tells that both
    [insertCSS] and [executeScript] resolved. *)
Definition settle (i : nat) (ok : bool) (st : State) : State :=
  match nth_error (pending st) i with
  | None => st
  | Some tabId =>
      let rest := firstn i (pending st) ++ skipn (S i) (pending st) in
      if ok then mkState (add tabId (injectedTabs st)) rest (scripts st ++ [tabId])
      else mkState (injectedTabs st) rest (scripts st)
  end.

Definition injectUnlessInjected (st : State) (tabId : nat) : State :=
  if negb (has tabId (injectedTabs st)) then injectWidget tabId st else st.

(** lines 2-13: the callback of [chrome.tabs.query] on the Gmail tabs *)
Definition onInstalled (tabs : list nat) (st : State) : State :=
  fold_left injectUnlessInjected tabs st.

Definition truthyUrl (url : option string) : bool :=
  match url with
  | Some u => negb (String.eqb u ""%string)
  | None => false
  end.

(** lines 39-46; [status] is [changeInfo.status], [url] is [tab.url] *)
Definition onUpdated (tabId : nat) (status : option string) (url : option string)
           (st : State) : State :=
  match status, url with
  | Some s, Some u =>
      if String.eqb s "complete"%string && truthyUrl url && JS.includes "mail.google.com"%string u
      then injectUnlessInjected st tabId
      else st
  | _, _ => st
  end.

(** lines 49-51 *)
Definition onRemoved (tabId : nat) (st : State) : State :=
  mkState (delete tabId (injectedTabs st)) (pending st) (scripts st).

(** lines 54-57 *)
Definition onReplaced (addedTabId removedTabId : nat) (st : State) : State :=
  mkState (delete removedTabId (injectedTabs st)) (pending st) (scripts st).

(** lines 60-70, on a request of type CREATE_WIDGET from tab [tabId]:
    the new state and the [success] of the response *)
Definition onCreateWidget (tabId : nat) (st : State) : State * bool :=
  if negb (has tabId (injectedTabs st)) then (injectWidget tabId st, true)
  else (st, false).

Inductive Event : Type :=
| Installed (tabs : list nat)
| Updated (tabId : nat) (status : option string) (url : option string)
| Removed (tabId : nat)
| Replaced (addedTabId removedTabId : nat)
| CreateWidget (tabId : nat)
| Settled (i : nat) (ok : bool).

Definition step (st : State) (e : Event) : State :=
  match e with
  | Installed tabs => onInstalled tabs st
  | Updated t s u => onUpdated t s u st
  | Removed t => onRemoved t st
  | Replaced a r => onReplaced a r st
  | CreateWidget t => fst (onCreateWidget t st)
  | Settled i ok => settle i ok st
  end.

Definition run (st : State) (l : list Event) : State := fold_left step l st.

Definition initial : State := mkState [] [] [].

(** The event takes [t] out of [injectedTabs] *)
Definition forgets (t : nat) (e : Event) : bool :=
  match e with
  | Removed t' => Nat.eqb t t'
  | Replaced _ t' => Nat.eqb t t'
  | _ => false
  end.

End Background.

(* ================================================================== *)
(** ** Facts about strings *)
(* ================================================================== *)

Import Dom Extractor Widget World Client Content Props.

Section StringFacts.

Variable P : N -> Prop.

Lemma Forall_trimStart (s : JS.str) : Forall P s -> Forall P (JS.trimStart s).
Proof.
  induction s as [|c t IH]; simpl; intros H; auto.
  destruct (JS.isWhiteSpace c); auto.
  inversion H; auto.
Qed.

Lemma Forall_trimEnd (s : JS.str) : Forall P s -> Forall P (JS.trimEnd s).
Proof.
  induction s as [|c t IH]; simpl; intros H; auto.
  inversion H as [|? ? Hc Ht]; subst.
  specialize (IH Ht).
  destruct (JS.trimEnd t).
  - destruct (JS.isWhiteSpace c); auto.
  - constructor; auto.
Qed.

Lemma Forall_trim (s : JS.str) : Forall P s -> Forall P (JS.trim s).
Proof. intros H. apply Forall_trimEnd, Forall_trimStart, H. Qed.

Lemma Forall_replaceRuns (p : N -> bool) (r : N) (b : bool) (s : JS.str) :
  P r -> Forall P s -> Forall P (JS.replaceRuns p r b s).
Proof.
  intros Hr. revert b.
  induction s as [|c t IH]; simpl; intros b H; auto.
  inversion H; subst.
  destruct (p c); [destruct b|]; auto.
Qed.

End StringFacts.

Lemma trimStart_head (s : JS.str) (c : N) :
  hd_error (JS.trimStart s) = Some c -> JS.isWhiteSpace c = false.
Proof.
  induction s as [|a t IH]; simpl; [discriminate|].
  destruct (JS.isWhiteSpace a) eqn:E; auto.
  simpl. intros [= <-]. exact E.
Qed.

Lemma trimEnd_head (s : JS.str) (c : N) :
  hd_error (JS.trimEnd s) = Some c -> hd_error s = Some c.
Proof.
  destruct s as [|a t]; simpl; auto.
  destruct (JS.trimEnd t); [destruct (JS.isWhiteSpace a)|]; simpl; auto; discriminate.
Qed.

Lemma trimEnd_last (s pre : JS.str) (c : N) :
  JS.trimEnd s = pre ++ [c] -> JS.isWhiteSpace c = false.
Proof.
  revert pre.
  induction s as [|a t IH]; simpl; intros pre H.
  - destruct pre; discriminate.
  - destruct (JS.trimEnd t) as [|x t'] eqn:E.
    + destruct (JS.isWhiteSpace a) eqn:Ea.
      * destruct pre; discriminate.
      * destruct pre as [|y [|z pre]]; simpl in H; try discriminate.
        injection H as <-. exact Ea.
    + destruct pre as [|y pre]; simpl in H.
      * discriminate.
      * injection H as _ H. eapply IH. exact H.
Qed.

Lemma trim_trimmed (s : JS.str) : trimmed (JS.trim s).
Proof.
  split.
  - intros c H. apply trimEnd_head in H. eapply trimStart_head, H.
  - intros pre c H. eapply trimEnd_last, H.
Qed.

Lemma replaceRuns_runsFree (b : bool) (s : JS.str) :
  runsFree b (JS.replaceRuns JS.isWhiteSpace JS.SPACE b s) = true.
Proof.
  revert b.
  induction s as [|c t IH]; intros b; simpl; auto.
  destruct (JS.isWhiteSpace c) eqn:E.
  - destruct b; [apply IH|].
    simpl. apply IH.
  - simpl. rewrite E. apply IH.
Qed.

Lemma runsFree_weaken (b : bool) (t : JS.str) :
  runsFree b t = true -> runsFree false t = true.
Proof.
  destruct t as [|c t]; simpl; auto.
  destruct (JS.isWhiteSpace c); auto.
  destruct b; simpl; auto. discriminate.
Qed.

Lemma runsFree_trimStart (b : bool) (s : JS.str) :
  runsFree b s = true -> runsFree false (JS.trimStart s) = true.
Proof.
  revert b.
  induction s as [|c t IH]; intros b; simpl; auto.
  destruct (JS.isWhiteSpace c) eqn:E.
  - intros H. apply andb_true_iff in H as [_ H]. eapply IH, H.
  - intros H. simpl. rewrite E. exact H.
Qed.

Lemma runsFree_trimEnd (b : bool) (s : JS.str) :
  runsFree b s = true -> runsFree b (JS.trimEnd s) = true.
Proof.
  revert b.
  induction s as [|c t IH]; intros b; simpl; auto.
  intros H.
  destruct (JS.isWhiteSpace c) eqn:E.
  - apply andb_true_iff in H as [Hb H].
    specialize (IH true H).
    destruct (JS.trimEnd t); auto.
    simpl in *. rewrite E, Hb. exact IH.
  - specialize (IH false H).
    destruct (JS.trimEnd t); simpl; rewrite E; auto.
Qed.

Lemma runsFree_adjacent (b : bool) (t pre post : JS.str) (c d : N) :
  runsFree b t = true -> t = pre ++ c :: d :: post ->
  JS.isWhiteSpace c = true -> JS.isWhiteSpace d = false.
Proof.
  revert b t.
  induction pre as [|x pre IH]; intros b t H -> Hc; simpl in H.
  - rewrite Hc in H. apply andb_true_iff in H as [_ H].
    simpl in H. destruct (JS.isWhiteSpace d); [discriminate H | reflexivity].
  - destruct (JS.isWhiteSpace x).
    + apply andb_true_iff in H as [_ H]. eapply IH; eauto.
    + eapply IH; eauto.
Qed.

(* ================================================================== *)
(** ** The extractor *)
(* ================================================================== *)

(** The part of the three chains that they share *)
Lemma stripped_chain (s : JS.str) :
  stripped (JS.replaceEach JS.isNbsp JS.SPACE
              (JS.removeAll JS.isZeroWidth (JS.removeAll JS.isControl s))).
Proof.
  unfold stripped, JS.replaceEach, JS.removeAll.
  induction s as [|c t IH]; simpl; [constructor|].
  destruct (JS.isControl c) eqn:E1; simpl; auto.
  destruct (JS.isZeroWidth c) eqn:E2; simpl; auto.
  constructor; auto.
  destruct (JS.isNbsp c) eqn:E3; auto.
Qed.

Lemma stripped_space :
  JS.isControl JS.SPACE = false /\ JS.isZeroWidth JS.SPACE = false
  /\ JS.isNbsp JS.SPACE = false.
Proof. repeat split. Qed.

Lemma replaceRuns_spaces (b : bool) (s : JS.str) :
  Forall (fun c => JS.isWhiteSpace c = true -> c = JS.SPACE)
         (JS.replaceRuns JS.isWhiteSpace JS.SPACE b s).
Proof.
  revert b.
  induction s as [|c t IH]; intros b; simpl; [constructor|].
  destruct (JS.isWhiteSpace c) eqn:E.
  - destruct b; auto.
  - constructor; auto. rewrite E. discriminate.
Qed.

Lemma or_Str (a : JS.val) (s : JS.str) : exists t, JS.or a (JS.Str s) = JS.Str t.
Proof.
  unfold JS.or. destruct a as [| |[|c u]]; simpl; eauto.
Qed.

Lemma cleanName_Str (s : JS.str) : exists t, cleanName (JS.Str s) = JS.Normal (JS.Str t).
Proof. eexists. reflexivity. Qed.

Lemma lastOf_app {A : Type} (pre : list A) (x : A) : lastOf (pre ++ [x]) = Some x.
Proof.
  unfold lastOf. rewrite length_app. simpl.
  replace (List.length pre + 1 - 1) with (List.length pre) by lia.
  rewrite nth_error_app2 by lia.
  rewrite Nat.sub_diag. reflexivity.
Qed.

Lemma lastOf_nil_inv {A : Type} (l : list A) : lastOf l = None -> l = [].
Proof.
  destruct l as [|a l] using rev_ind; auto.
  rewrite lastOf_app. discriminate.
Qed.

Lemma getSubject_total (d : Document) :
  exists s, getSubject d = JS.Normal (JS.Str s)
            /\ (querySelector h2_hP d = None ->
                querySelector heading_thread d = None -> s = []).
Proof.
  unfold getSubject, cleanSubject.
  eexists. split; [reflexivity|].
  intros -> ->. reflexivity.
Qed.

Lemma getSender_total (d : Document) :
  exists n e, getSender d = JS.Normal (mkSender (JS.Str n) (JS.Str e))
              /\ (querySelector span_gD d = None -> n = [] /\ e = []).
Proof.
  unfold getSender.
  destruct (querySelector span_gD d) as [el|].
  - destruct (or_Str (optCall (getAttribute "name") (Some el)) (text (Some el))) as [n ->].
    destruct (or_Str (JS.or (optCall (getAttribute "email") (Some el))
                            (optCall (getAttribute "data-hovercard-id") (Some el))) [])
      as [e ->].
    destruct (cleanName_Str n) as [n' ->]. simpl.
    destruct (or_Str (JS.Str n') []) as [n'' ->].
    destruct (or_Str (JS.Str e) []) as [e' ->].
    exists n'', e'. split; [reflexivity|discriminate].
  - exists [], []. split; [reflexivity|auto].
Qed.

Lemma getBody_total (d : Document) :
  exists b, getBody d = JS.Normal (JS.Str b)
            /\ (querySelectorAll div_a3s d = [] -> b = []).
Proof.
  unfold getBody.
  destruct (lastOf (querySelectorAll div_a3s d)) as [last|] eqn:E.
  - unfold innerTextOf. destruct (innerText last); simpl.
    + eexists. split; [reflexivity|].
      intros H. rewrite H in E. discriminate.
    + exists []. auto.
  - exists []. auto.
Qed.

Lemma extract_total (d : Document) :
  exists s n e b : JS.str,
    extract d = JS.Normal (mkEmailData (JS.Str s) (mkSender (JS.Str n) (JS.Str e)) (JS.Str b))
    /\ (querySelector h2_hP d = None -> querySelector heading_thread d = None -> s = [])
    /\ (querySelector span_gD d = None -> n = [] /\ e = [])
    /\ (querySelectorAll div_a3s d = [] -> b = []).
Proof.
  destruct (getSubject_total d) as (s & Hs & Hs0).
  destruct (getSender_total d) as (n & e & Hn & Hn0).
  destruct (getBody_total d) as (b & Hb & Hb0).
  exists s, n, e, b.
  unfold extract. rewrite Hs, Hn, Hb. simpl. auto.
Qed.

(** C8.  Extraction never throws: on every document the three getters
    return, every field of the message is a string, and a field for which
    no selector resolves is the empty string; the empty message is a
    possible result. *)
Theorem extract_never_throws (d : Document) :
  exists s n e b : JS.str,
    extract d = JS.Normal (mkEmailData (JS.Str s) (mkSender (JS.Str n) (JS.Str e)) (JS.Str b))
    /\ (querySelector h2_hP d = None -> querySelector heading_thread d = None -> s = [])
    /\ (querySelector span_gD d = None -> n = [] /\ e = [])
    /\ (querySelectorAll div_a3s d = [] -> b = []).
Proof. exact (extract_total d). Qed.

Lemma extract_never_throws_witness :
  extract [] = JS.Normal (mkEmailData (JS.Str []) (mkSender (JS.Str []) (JS.Str [])) (JS.Str [])).
Proof.
  destruct (extract_never_throws []) as (s & n & e & b & H & Hs & Hn & Hb).
  rewrite H.
  rewrite (Hs eq_refl eq_refl), (Hb eq_refl).
  destruct (Hn eq_refl) as [-> ->].
  reflexivity.
Defined.

(** An element without [innerText] makes [getBody] throw inside its
    [try]; the [catch] turns that into the empty string. *)
Example getBody_catches :
  getBody [mkElement "div" ["a3s"%string] [] (JS.lit "x") None] = JS.Normal (JS.Str []).
Proof. reflexivity. Qed.

Lemma getBody_of_last (d : Document) (pre : list Element) (l : Element) :
  querySelectorAll div_a3s d = pre ++ [l] -> getBody d = getBody [l].
Proof.
  intros H.
  assert (Hm : matches div_a3s l = true).
  { assert (Hin : In l (querySelectorAll div_a3s d)) by (rewrite H; apply in_or_app; simpl; auto).
    apply filter_In in Hin. tauto. }
  unfold getBody.
  rewrite H, lastOf_app.
  unfold querySelectorAll. simpl. rewrite Hm.
  reflexivity.
Qed.

Lemma chain_keptUnits (s : JS.str) :
  JS.replaceEach JS.isNbsp JS.SPACE
    (JS.removeAll JS.isZeroWidth (JS.removeAll JS.isControl s)) = keptUnits s.
Proof.
  unfold JS.replaceEach, JS.removeAll.
  induction s as [|c t IH]; simpl; auto.
  unfold deleted.
  destruct (JS.isControl c); simpl; auto.
  destruct (JS.isZeroWidth c); simpl; auto.
  rewrite IH. reflexivity.
Qed.

Lemma getBody_of_last_text (d : Document) (pre : list Element) (l : Element) :
  querySelectorAll div_a3s d = pre ++ [l] ->
  getBody d
  = match innerText l with
    | Some t =>
        JS.Normal (JS.Str (JS.trim (JS.replaceRuns JS.isWhiteSpace JS.SPACE false
                                      (keptUnits (JS.trim t)))))
    | None => JS.Normal (JS.Str [])
    end.
Proof.
  intros H. unfold getBody. rewrite H, lastOf_app.
  unfold innerTextOf. destruct (innerText l) as [t|]; [|reflexivity].
  rewrite <- chain_keptUnits. reflexivity.
Qed.

(** C10.  With several [div.a3s] on the page the body is read from the
    last one in document order and from nothing else: it is the trimmed
    [innerText] of that element with the deleted units taken out, the
    non-breaking spaces turned into spaces, the runs of white space made
    single spaces and the ends trimmed (the empty string when the element
    has no [innerText]).  So the page has the body of the page made of
    that element alone, and of every page whose last [div.a3s] is that
    element, whatever precedes it. *)
Theorem getBody_last_only (d : Document) (pre : list Element) (l : Element) :
  querySelectorAll div_a3s d = pre ++ [l] ->
  getBody d
  = match innerText l with
    | Some t =>
        JS.Normal (JS.Str (JS.trim (JS.replaceRuns JS.isWhiteSpace JS.SPACE false
                                      (keptUnits (JS.trim t)))))
    | None => JS.Normal (JS.Str [])
    end
  /\ getBody d = getBody [l]
  /\ (forall d' pre', querySelectorAll div_a3s d' = pre' ++ [l] -> getBody d' = getBody d).
Proof.
  intros H. split; [|split].
  - apply (getBody_of_last_text d pre l H).
  - eapply getBody_of_last, H.
  - intros d' pre' H'.
    transitivity (getBody [l]); [|symmetry]; eapply getBody_of_last; eauto.
Qed.

Lemma getBody_last_only_witness :
  getBody Scenario.twoBodies = JS.Normal (JS.Str (JS.lit "second message")).
Proof.
  apply (getBody_last_only Scenario.twoBodies
           [Scenario.el "div" ["a3s"%string] [] "first message"]
           (Scenario.el "div" ["a3s"%string] [] "second message")).
  reflexivity.
Defined.

(** The first body does not show in the result, the last one does. *)
Example getBody_two_bodies :
  getBody Scenario.twoBodies = JS.Normal (JS.Str (JS.lit "second message"))
  /\ getBody (rev Scenario.twoBodies) = JS.Normal (JS.Str (JS.lit "first message")).
Proof. split; reflexivity. Qed.

(** The subject comes from the first selector that finds an element. *)
Lemma getSubject_first_element (d : Document) (e : Element) :
  querySelector h2_hP d = Some e ->
  getSubject d = cleanSubject (JS.Str (text (Some e))).
Proof.
  intros H. unfold getSubject. rewrite H. reflexivity.
Qed.

(** C7, at the input where it fails.  [h2.hP] is on the page with empty
    text and the heading fallback carries "Hello": the subject is the
    empty string, the later candidate with text is not consulted.  The
    [getSubject] of the README returns "Hello" on the same page. *)
Theorem empty_first_candidate_wins :
  querySelector h2_hP Scenario.emptyHeadingFirst = Some (Scenario.el "h2" ["hP"%string] [] "")
  /\ text (querySelector heading_thread Scenario.emptyHeadingFirst) = JS.lit "Hello"
  /\ getSubject Scenario.emptyHeadingFirst = JS.Normal (JS.Str [])
  /\ Readme.getSubject Scenario.emptyHeadingFirst = JS.lit "Hello".
Proof. repeat split. Qed.

(** Where [h2.hP] is absent the fallback is used, as in the README. *)
Example heading_fallback_used :
  getSubject (tl Scenario.emptyHeadingFirst) = JS.Normal (JS.Str (JS.lit "Hello"))
  /\ Readme.getSubject (tl Scenario.emptyHeadingFirst) = JS.lit "Hello".
Proof. repeat split. Qed.

(** The sender's name is the [name] attribute whenever that is a
    non-empty string, also when it is blank and the text is not. *)
Example blank_name_attribute_wins :
  getSender [mkElement "span" ["gD"%string] [("name"%string, JS.lit " ")]
                       (JS.lit "Bob") (Some (JS.lit "Bob"))]
  = JS.Normal (mkSender (JS.Str []) (JS.Str [])).
Proof. reflexivity. Qed.

(** C5 as stated fails: on "A  B" subject and sender name keep the two
    spaces, and the body chain gives another result. *)
Lemma subject_keeps_whitespace_runs :
  exists f : JS.str,
    cleanSubject (JS.Str (JS.lit "A  B")) = JS.Normal (JS.Str f)
    /\ cleanName (JS.Str (JS.lit "A  B")) = JS.Normal (JS.Str f)
    /\ ~ singleSpaced f
    /\ cleanBody (JS.Str (JS.lit "A  B")) <> JS.Normal (JS.Str f).
Proof.
  exists (JS.lit "A  B").
  split; [reflexivity|]. split; [reflexivity|]. split.
  - intros [_ H].
    specialize (H [65%N] 32%N 32%N [66%N] eq_refl eq_refl). discriminate.
  - discriminate.
Qed.

(* ================================================================== *)
(** ** Auto-read and the click handler *)
(* ================================================================== *)

Lemma unreadable_iff (s n e b : JS.str) :
  unreadable (mkEmailData (JS.Str s) (mkSender (JS.Str n) (JS.Str e)) (JS.Str b)) = true
  <-> s = [] /\ n = [] /\ b = [].
Proof.
  unfold unreadable. simpl.
  destruct s, n, b; simpl; split; try discriminate; auto;
    intros (? & ? & ?); discriminate.
Qed.

Lemma filter_logged (f : Event -> bool) (e : Event) (l : list Event) :
  f e = false -> filter f (l ++ [e]) = filter f l.
Proof.
  intros H. rewrite filter_app. simpl. rewrite H. apply app_nil_r.
Qed.

Lemma summary_logged (f : Event -> bool) (e : Event) (l : list Event) :
  f e = true -> filter f (l ++ [e]) = filter f l ++ [e].
Proof.
  intros H. rewrite filter_app. simpl. rewrite H. reflexivity.
Qed.

(** C4, as the code has it.  [autoReadCurrentEmail] has three gates.
    Being unreadable (subject, sender name and body all the empty
    string) is one of them: an unreadable message never begins a summary,
    and where it was extracted it ends in the could-not-read outcome.  A
    message that is not unreadable begins a summary, with the extracted
    data as the one new pending call, exactly when in addition a message
    is open and no audio with a usable URL is cached; failing that, the
    handler returns at once and changes nothing. *)
Theorem autoread_has_three_gates (p : Page) (w : World) (d : EmailData) :
  extract (document p) = JS.Normal d ->
  let w' := autoReadCurrentEmail p w in
  (unreadable d = true <->
     subject d = JS.Str [] /\ name (sender d) = JS.Str [] /\ body d = JS.Str [])
  /\ (unreadable d = true ->
        inFlight w' = inFlight w
        /\ filter isSummaryCall (log w') = filter isSummaryCall (log w)
        /\ (isMessageOpen (document p) = true -> hasAudioFile (widget w) = false ->
              w' = extractionEmpty w))
  /\ (unreadable d = false ->
        if isMessageOpen (document p) && negb (hasAudioFile (widget w))
        then inFlight w' = inFlight w ++ [d]
             /\ filter isSummaryCall (log w')
                = filter isSummaryCall (log w) ++ [EvGenerateSummary (emailContentOf d)]
             /\ widget w' = withIcon (fun i => setLoading true (setActive true i)) (widget w)
        else w' = w).
Proof.
  intros H w'. subst w'.
  destruct (extract_total (document p)) as (s & n & e & b & H' & _).
  rewrite H in H'. injection H' as ->.
  split; [|split].
  - rewrite unreadable_iff. simpl.
    split.
    + intros (-> & -> & ->). auto.
    + intros (Hs & Hn & Hb).
      injection Hs as ->. injection Hn as ->. injection Hb as ->. auto.
  - intros Hu. unfold autoReadCurrentEmail.
    destruct (isMessageOpen (document p)); cbn [negb];
      [|repeat split; auto; intros; discriminate].
    destruct (hasAudioFile (widget w)); cbn [negb];
      [repeat split; auto; intros; discriminate|].
    rewrite H, Hu.
    split; [reflexivity|].
    split; [apply filter_logged; reflexivity|reflexivity].
  - intros Hu. unfold autoReadCurrentEmail.
    destruct (isMessageOpen (document p)); cbn [negb andb]; [|reflexivity].
    destruct (hasAudioFile (widget w)); cbn [negb]; [reflexivity|].
    rewrite H, Hu. unfold beginSummary, logged, withInFlight, withWidget.
    cbn [inFlight log widget].
    split; [reflexivity|]. split; [|reflexivity].
    apply summary_logged. reflexivity.
Qed.

Lemma autoread_has_three_gates_witness :
  inFlight (autoReadCurrentEmail Scenario.pageA (initializeWidget Scenario.inbox))
  = [Scenario.dataA].
Proof.
  apply (autoread_has_three_gates Scenario.pageA (initializeWidget Scenario.inbox)
           Scenario.dataA);
    reflexivity.
Defined.

(** C4 as stated fails: being unreadable is not the only gate.  The audio
    of message A is cached.  The user leaves A and comes back to it: A is
    open and readable, and auto-read returns at once, the audio being
    there already.  The user moves on to message B, open and readable as
    well: auto-read returns at once and begins no summary either. *)
Lemma readable_message_not_summarised :
  let w0 := run (initializeWidget Scenario.inbox)
                [Poll Scenario.pageA; AutoReadTimeout Scenario.pageA;
                 Settles 0 Scenario.netUp] in
  let wA := run w0 [Poll Scenario.inbox; Poll Scenario.pageA] in
  let w := run w0 [Poll Scenario.pageB] in
  (isMessageOpen (document Scenario.pageA) = true
   /\ extract (document Scenario.pageA) = JS.Normal Scenario.dataA
   /\ unreadable Scenario.dataA = false
   /\ autoReadCurrentEmail Scenario.pageA wA = wA
   /\ inFlight (step wA (AutoReadTimeout Scenario.pageA)) = []
   /\ filter isSummaryCall (log (step wA (AutoReadTimeout Scenario.pageA)))
      = [EvGenerateSummary (emailContentOf Scenario.dataA)])
  /\ isMessageOpen (document Scenario.pageB) = true
  /\ extract (document Scenario.pageB) = JS.Normal Scenario.dataB
  /\ unreadable Scenario.dataB = false
  /\ autoReadCurrentEmail Scenario.pageB w = w
  /\ inFlight (autoReadCurrentEmail Scenario.pageB w) = []
  /\ filter isSummaryCall (log (step w (AutoReadTimeout Scenario.pageB)))
     = [EvGenerateSummary (emailContentOf Scenario.dataA)].
Proof. vm_compute. repeat split. Qed.

(** A readable message begins a summary with exactly the extracted data. *)
Example readable_message_is_summarised :
  autoReadCurrentEmail Scenario.pageA (initializeWidget Scenario.inbox)
  = summaryBegun Scenario.dataA (initializeWidget Scenario.inbox).
Proof. reflexivity. Qed.

(** A click while the icon carries class [loading] begins no summary,
    sends nothing and sets no timer; when no audio is cached it changes
    nothing at all. *)
Lemma click_while_requesting (p : Page) (w : World) :
  requesting w = true ->
  inFlight (handleIconClick p w) = inFlight w
  /\ log (handleIconClick p w) = log w
  /\ timers (handleIconClick p w) = timers w
  /\ (hasAudioFile (widget w) = false -> handleIconClick p w = w).
Proof.
  unfold requesting, hasClass, handleIconClick.
  destruct (icon (widget w)) as [i|]; [|discriminate].
  intros Hl. rewrite Hl.
  destruct (active i); [|repeat split; auto].
  repeat split; auto.
  intros Ha. unfold withWidget, handlePlayPause. rewrite Ha. simpl.
  destruct w; reflexivity.
Qed.

(** C3, at the input where it fails.  The user opens message A, which
    sets the auto-read timeout, and clicks the icon before it fires: the
    click begins a summary and the widget is in Requesting.  The timeout
    then runs [autoReadCurrentEmail], which does not look at class
    [loading], and a second summary is begun while the first is pending. *)
Theorem timeout_after_click_begins_second_summary :
  let w := run (initializeWidget Scenario.inbox) [Poll Scenario.pageA; Click Scenario.pageA] in
  requesting w = true
  /\ inFlight w = [Scenario.dataA]
  /\ inFlight (step w (AutoReadTimeout Scenario.pageA)) = [Scenario.dataA; Scenario.dataA]
  /\ List.length (filter isSummaryCall (log (step w (AutoReadTimeout Scenario.pageA)))) = 2
  /\ inFlight (step w (Click Scenario.pageA)) = [Scenario.dataA].
Proof. vm_compute. repeat split. Qed.

(** Two summaries are also pending after the user moves from message A
    to message B before the answer for A is there. *)
Example two_summaries_in_flight :
  let w := run (initializeWidget Scenario.inbox)
               [Poll Scenario.pageA; AutoReadTimeout Scenario.pageA;
                Poll Scenario.pageB; AutoReadTimeout Scenario.pageB] in
  inFlight w = [Scenario.dataA; Scenario.dataB]
  /\ List.length (filter isSummaryCall (log w)) = 2.
Proof. vm_compute. repeat split. Qed.

(* ================================================================== *)
(** ** Message-change detection *)
(* ================================================================== *)

Lemma str_eqb_refl (s : JS.str) : str_eqb s s = true.
Proof. unfold str_eqb. destruct (list_eq_dec N.eq_dec s s); congruence. Qed.

Lemma str_eqb_eq (a b : JS.str) : str_eqb a b = true -> a = b.
Proof. unfold str_eqb. destruct (list_eq_dec N.eq_dec a b); congruence. Qed.

Lemma checkForEmailChange_records (p : Page) (w : World) :
  currentEmailId (checkForEmailChange p w) = getCurrentEmailId p.
Proof.
  unfold checkForEmailChange.
  destruct (str_eqb (getCurrentEmailId p) (currentEmailId w)) eqn:E.
  - symmetry. apply str_eqb_eq, E.
  - destruct (negb (str_eqb (getCurrentEmailId p) noEmail)); reflexivity.
Qed.

Lemma checkForEmailChange_same (p : Page) (w : World) :
  currentEmailId w = getCurrentEmailId p -> checkForEmailChange p w = w.
Proof.
  intros H. unfold checkForEmailChange. rewrite H, str_eqb_refl. reflexivity.
Qed.

Lemma checkForEmailChange_resets (p : Page) (w : World) :
  resets (checkForEmailChange p w) <= S (resets w).
Proof.
  unfold checkForEmailChange, resets.
  destruct (str_eqb (getCurrentEmailId p) (currentEmailId w)); [lia|].
  destruct (negb (str_eqb (getCurrentEmailId p) noEmail)); simpl;
    rewrite ?filter_app, ?length_app; simpl; lia.
Qed.

(** C9.  The change check is idempotent.  Two checks in a row that
    compute the same identity, each started by the timer or by the
    mutation observer, leave the state the first check left: the second
    one resets nothing, sets no timer and begins nothing, so the widget is
    reset at most once. *)
Theorem change_check_idempotent (a b : Input) (p p' : Page) (w : World) :
  a = Poll p \/ a = Mutation p ->
  b = Poll p' \/ b = Mutation p' ->
  getCurrentEmailId p' = getCurrentEmailId p ->
  step (step w a) b = step w a
  /\ resets (run w [a; b]) <= S (resets w).
Proof.
  intros Ha Hb Hid.
  assert (E1 : step w a = checkForEmailChange p w) by (destruct Ha; subst; reflexivity).
  assert (E2 : forall v, step v b = checkForEmailChange p' v) by (destruct Hb; subst; reflexivity).
  assert (E : step (step w a) b = step w a).
  { rewrite E2, E1. apply checkForEmailChange_same.
    rewrite checkForEmailChange_records. auto. }
  split; [exact E|].
  simpl. rewrite E, E1. apply checkForEmailChange_resets.
Qed.

Lemma change_check_idempotent_witness :
  step (step (initializeWidget Scenario.inbox) (Poll Scenario.pageA)) (Mutation Scenario.pageA)
  = step (initializeWidget Scenario.inbox) (Poll Scenario.pageA).
Proof.
  apply (change_check_idempotent (Poll Scenario.pageA) (Mutation Scenario.pageA)
           Scenario.pageA Scenario.pageA (initializeWidget Scenario.inbox));
    auto.
Defined.

(** The first of the two checks does reset the widget when the identity
    is new. *)
Example first_check_resets :
  resets (step (initializeWidget Scenario.inbox) (Poll Scenario.pageA)) = 1
  /\ timers (step (initializeWidget Scenario.inbox) (Poll Scenario.pageA)) = 1.
Proof. vm_compute. auto. Qed.

(* ================================================================== *)
(** ** The summary client *)
(* ================================================================== *)

Lemma waits_app (l l' : list Event) : waits (l ++ l') = waits l ++ waits l'.
Proof.
  induction l as [|e l IH]; simpl; auto.
  destruct (waitOf e); simpl; congruence.
Qed.

(** C1, at the input where it fails.  Two rejected attempts and then a
    2xx answer: three POSTs are sent, the loop ends with the third answer,
    and the waits after the first and the second failure are 2000 ms and
    4000 ms, not 1000 ms and 2000 ms. *)
Theorem two_failures_wait_two_then_four
    (h : FetchOutcome) (x : XhrOutcome) (e1 e2 : JS.Error) (r : Response)
    (c : JS.str) (w : World) :
  ok r = true ->
  let net := mkNetwork h x
               (fun k => match k with
                         | 1 => Rejected e1
                         | 2 => Rejected e2
                         | _ => Resolved r
                         end) in
  let out := retryLoop net c 3 (mkVars None None) w in
  fst out = JS.Normal (mkVars (Some r) (Some e2))
  /\ log (snd out)
     = log w ++ [EvPostSummarize 1 c; EvWait 2000; EvPostSummarize 2 c; EvWait 4000;
                 EvPostSummarize 3 c]
  /\ waits (log (snd out)) = waits (log w) ++ [2000; 4000]%Z.
Proof.
  intros Hok net out.
  assert (E : out = (JS.Normal (mkVars (Some r) (Some e2)),
                     mkWorld (widget w) (currentEmailId w) (inFlight w) (timers w)
                       (log w ++ [EvPostSummarize 1 c; EvWait 2000; EvPostSummarize 2 c;
                                  EvWait 4000; EvPostSummarize 3 c]))).
  { subst out net. unfold retryLoop, bindM, emit, logged, ret. simpl.
    rewrite Hok. rewrite <- !app_assoc. reflexivity. }
  rewrite E. simpl. repeat split.
  rewrite waits_app. reflexivity.
Qed.

Lemma two_failures_wait_two_then_four_witness :
  waits (log (snd (retryLoop
                     (mkNetwork (Resolved Scenario.okResponse) (XhrStatus 200)
                        (fun k => match k with
                                  | 1 => Rejected Scenario.failedToFetch
                                  | 2 => Rejected Scenario.failedToFetch
                                  | _ => Resolved Scenario.okResponse
                                  end))
                     [] 3 (mkVars None None) (initializeWidget Scenario.inbox))))
  = [2000; 4000]%Z.
Proof.
  apply (two_failures_wait_two_then_four (Resolved Scenario.okResponse) (XhrStatus 200)
           Scenario.failedToFetch Scenario.failedToFetch Scenario.okResponse []
           (initializeWidget Scenario.inbox)).
  reflexivity.
Defined.

(** The loop stops at the first 2xx answer. *)
Lemma retry_stops_on_success (net : Network) (c : JS.str) (w : World) (r : Response) :
  summarize net 1 = Resolved r -> ok r = true ->
  retryLoop net c 3 (mkVars None None) w
  = (JS.Normal (mkVars (Some r) None), logged (EvPostSummarize 1 c) w).
Proof.
  intros H Hok. unfold retryLoop, bindM, emit, ret. simpl.
  rewrite H, Hok. reflexivity.
Qed.

(** When all three attempts are rejected the loop throws the error of the
    third, after three POSTs. *)
Lemma retry_exhausted_throws_last (net : Network) (c : JS.str) (w : World)
      (e1 e2 e3 : JS.Error) :
  summarize net 1 = Rejected e1 -> summarize net 2 = Rejected e2 ->
  summarize net 3 = Rejected e3 ->
  fst (retryLoop net c 3 (mkVars None None) w) = JS.Throw e3
  /\ List.length (filter isPost (log (snd (retryLoop net c 3 (mkVars None None) w))))
     = 3 + List.length (filter isPost (log w)).
Proof.
  intros H1 H2 H3. unfold retryLoop, bindM, emit, logged, throw. simpl.
  rewrite H1. simpl. rewrite H2. simpl. rewrite H3. simpl.
  split; [reflexivity|].
  rewrite !filter_app, !length_app. simpl. lia.
Qed.

(** The whole episode on the flaky backend: the widget ends ready to
    play, with the audio cached, after waits of 2 s and 4 s. *)
Example flaky_backend_episode :
  let w := run (initializeWidget Scenario.inbox)
               [Poll Scenario.pageA; AutoReadTimeout Scenario.pageA; Settles 0 Scenario.netFlaky] in
  waits (log w) = [2000; 4000]%Z
  /\ List.length (filter isPost (log w)) = 3
  /\ speechData (widget w) = Some Scenario.speechA
  /\ icon (widget w) = Some (mkIcon true false false PlayGlyph)
  /\ inFlight w = [].
Proof. vm_compute. repeat split. Qed.

Lemma showFailure_absorbs (s : Widget.State) :
  showFailure (updateIconToSpeaker (dropLoadingActive s)) = showFailure s.
Proof.
  destruct s as [[i|] [dl|] sd au pl pa]; reflexivity.
Qed.

(** What the failure outcome looks like: no [loading], no [active], no
    [progress], the speaker glyph, the download action hidden. *)
Lemma showFailure_shape (s : Widget.State) (i : Icon) :
  icon s = Some i ->
  icon (showFailure s) = Some (mkIcon false false false SpeakerGlyph)
  /\ download (showFailure s) = option_map (fun _ => false) (download s)
  /\ speechData (showFailure s) = speechData s.
Proof.
  intros H. destruct s as [ic dl sd au pl pa]. simpl in H. subst ic.
  repeat split.
Qed.

(** The fallback probe of lines 710-727 never reaches [send]: [open] is
    called for a synchronous request on an object whose [timeout] is
    5000, and throws. *)
Lemma fallback_probe_throws (net : Network) (testError : JS.Error) (w : World) :
  catchM
    (xhr <-- xhrOpen false (mkXhr 5000 0) ;;
     xhr <-- xhrSend net xhr ;;
     if (xstatus xhr =? 200)%Z then ret true
     else throw (newError ("XMLHttpRequest failed: " ++ JS.ofZ (xstatus xhr))))
    (fun xhrError => throw (newError ("Cannot connect to server: " ++ JS.message testError))) w
  = (JS.Throw (newError ("Cannot connect to server: " ++ JS.message testError)), w).
Proof. reflexivity. Qed.

(** [open] does not refuse every synchronous request: without the
    [timeout] it would let the request through. *)
Example synchronous_open_without_timeout (w : World) :
  xhrOpen false (mkXhr 0 0) w = (JS.Normal (mkXhr 0 0), w)
  /\ xhrOpen true (mkXhr 5000 0) w = (JS.Normal (mkXhr 5000 0), w).
Proof. split; reflexivity. Qed.

(** C6.  When the health probe fails (the request is rejected or the
    answer is not 2xx) the episode ends in the failure outcome after that
    one request: nothing else is sent, in particular no POST to
    [/summarize], and the widget is unreachable: the icon carries neither
    [loading] nor [active] nor [progress] and shows the speaker glyph,
    the download action is hidden, and cache, audio element and play
    flags are as they were. *)
Theorem failed_probe_fails_fast (net : Network) (d : EmailData) (w : World) :
  healthFails net = true ->
  let w' := snd (generateSummary net d w) in
  log w' = log w ++ [EvGetHealth]
  /\ filter isPost (log w') = filter isPost (log w)
  /\ widget w' = showFailure (widget w)
  /\ inFlight w' = inFlight w
  /\ requesting w' = false
  /\ hasClass active (widget w') = false
  /\ (forall i, icon (widget w) = Some i ->
        icon (widget w') = Some (mkIcon false false false SpeakerGlyph)
        /\ download (widget w') = option_map (fun _ => false) (download (widget w)))
  /\ speechData (widget w') = speechData (widget w)
  /\ currentAudio (widget w') = currentAudio (widget w)
  /\ isPlaying (widget w') = isPlaying (widget w)
  /\ isPaused (widget w') = isPaused (widget w).
Proof.
  intros H w'.
  assert (E : w' = logged EvGetHealth (withWidget showFailure w)).
  { subst w'. unfold healthFails in H.
    unfold generateSummary, probeServer, fetchHealth.
    unfold catchM at 1. unfold bindM at 1. unfold catchM at 1.
    unfold bindM at 1. unfold bindM at 1. unfold emit at 1.
    destruct (health net) as [r|e].
    - apply negb_true_iff in H. unfold ret at 1. rewrite H.
      unfold throw at 1. cbv beta iota.
      change (String.eqb (JS.name (newError _)) "TypeError") with false.
      cbv beta iota. rewrite andb_false_l, fallback_probe_throws.
      reflexivity.
    - unfold throw at 1. cbv beta iota.
      destruct (String.eqb (JS.name e) "TypeError"
                && JS.includes "Failed to fetch" (JS.message e)).
      + unfold bindM, onWidget, throw, withWidget, logged. simpl.
        rewrite showFailure_absorbs. reflexivity.
      + rewrite fallback_probe_throws. reflexivity. }
  rewrite E. unfold requesting.
  destruct w as [[[i|] [dl|] sd au pl pa] id fl tm lg]; simpl;
    (split; [reflexivity|]);
    (split; [apply filter_logged; reflexivity|]);
    repeat split; congruence.
Qed.

Lemma failed_probe_fails_fast_witness :
  filter isPost
    (log (snd (generateSummary Scenario.netProbe503 Scenario.dataA
                 (initializeWidget Scenario.inbox))))
  = filter isPost (log (initializeWidget Scenario.inbox)).
Proof.
  apply (failed_probe_fails_fast Scenario.netProbe503 Scenario.dataA
           (initializeWidget Scenario.inbox)).
  reflexivity.
Defined.

(** With the backend down the episode begun for message A sends the one
    probe and ends in the failure outcome. *)
Example backend_down_episode :
  let w := run (initializeWidget Scenario.inbox)
               [Poll Scenario.pageA; AutoReadTimeout Scenario.pageA; Settles 0 Scenario.netDown] in
  filter isPost (log w) = []
  /\ icon (widget w) = Some (mkIcon false false false SpeakerGlyph)
  /\ download (widget w) = Some false
  /\ inFlight w = [].
Proof. vm_compute. repeat split. Qed.

(* ================================================================== *)
(** ** Responses and the message identity *)
(* ================================================================== *)

Section IdBlind.

Context {A B : Type}.






End IdBlind.











(* ================================================================== *)
(** ** More on the extractor *)
(* ================================================================== *)

Import Listeners.

Lemma removeAll_fixed (p : N -> bool) (t : JS.str) :
  Forall (fun c => p c = false) t -> JS.removeAll p t = t.
Proof.
  unfold JS.removeAll.
  induction 1 as [|c t Hc Ht IH]; simpl; auto.
  rewrite Hc. simpl. congruence.
Qed.

Lemma replaceEach_fixed (p : N -> bool) (r : N) (t : JS.str) :
  Forall (fun c => p c = false) t -> JS.replaceEach p r t = t.
Proof.
  unfold JS.replaceEach.
  induction 1 as [|c t Hc Ht IH]; simpl; auto.
  rewrite Hc. congruence.
Qed.

Lemma replaceRuns_fixed (b : bool) (t : JS.str) :
  runsFree b t = true ->
  Forall (fun c => JS.isWhiteSpace c = true -> c = JS.SPACE) t ->
  JS.replaceRuns JS.isWhiteSpace JS.SPACE b t = t.
Proof.
  revert b.
  induction t as [|c t IH]; intros b Hr Hs; simpl; auto.
  inversion Hs as [|? ? Hc Ht]; subst.
  simpl in Hr.
  destruct (JS.isWhiteSpace c) eqn:E.
  - apply andb_true_iff in Hr as [Hb Hr].
    destruct b; [discriminate|].
    assert (Hsp : c = JS.SPACE) by auto.
    rewrite Hsp. f_equal. apply IH; auto.
  - f_equal. apply IH; auto.
Qed.

Lemma trimStart_fixed (t : JS.str) :
  (forall c, hd_error t = Some c -> JS.isWhiteSpace c = false) -> JS.trimStart t = t.
Proof.
  destruct t as [|c t]; simpl; auto.
  intros H. rewrite (H c eq_refl). reflexivity.
Qed.

Lemma trimEnd_fixed (t : JS.str) :
  (forall pre c, t = pre ++ [c] -> JS.isWhiteSpace c = false) -> JS.trimEnd t = t.
Proof.
  induction t as [|a t IH]; simpl; auto.
  intros H.
  destruct t as [|x t'].
  - simpl. rewrite (H [] a eq_refl). reflexivity.
  - rewrite IH; [reflexivity|].
    intros pre c E. apply (H (a :: pre) c). simpl. congruence.
Qed.

Lemma trim_fixed (t : JS.str) : trimmed t -> JS.trim t = t.
Proof.
  intros [Hh Hl]. unfold JS.trim.
  rewrite trimStart_fixed by exact Hh. apply trimEnd_fixed, Hl.
Qed.

Lemma stripped_parts (t : JS.str) :
  stripped t ->
  Forall (fun c => JS.isControl c = false) t
  /\ Forall (fun c => JS.isZeroWidth c = false) t
  /\ Forall (fun c => JS.isNbsp c = false) t.
Proof.
  unfold stripped. intros H. repeat split;
    (eapply Forall_impl; [|exact H]); simpl; tauto.
Qed.

Lemma field_chain_fixed (t : JS.str) :
  stripped t -> trimmed t ->
  JS.trim (JS.replaceEach JS.isNbsp JS.SPACE
             (JS.removeAll JS.isZeroWidth (JS.removeAll JS.isControl t))) = t.
Proof.
  intros Hs Ht. destruct (stripped_parts t Hs) as (Hc & Hz & Hn).
  rewrite (removeAll_fixed _ t Hc), (removeAll_fixed _ t Hz), (replaceEach_fixed _ _ t Hn).
  apply trim_fixed, Ht.
Qed.

Lemma body_runsFree (s : JS.str) :
  runsFree false (JS.trim (JS.replaceRuns JS.isWhiteSpace JS.SPACE false s)) = true.
Proof.
  apply runsFree_trimEnd. eapply runsFree_trimStart. apply replaceRuns_runsFree.
Qed.

Lemma trimStart_replaceRuns (b : bool) (g : JS.str) :
  JS.trimStart (JS.replaceRuns JS.isWhiteSpace JS.SPACE b g)
  = JS.replaceRuns JS.isWhiteSpace JS.SPACE false (JS.trimStart g).
Proof.
  revert b.
  induction g as [|c t IH]; intros b; simpl; auto.
  destruct (JS.isWhiteSpace c) eqn:E.
  - destruct b; simpl; apply IH.
  - simpl. rewrite E. reflexivity.
Qed.

Lemma replaceRuns_nonempty (b : bool) (pre : JS.str) (c : N) :
  JS.isWhiteSpace c = false ->
  JS.replaceRuns JS.isWhiteSpace JS.SPACE b (pre ++ [c]) <> [].
Proof.
  intros Hc. revert b.
  induction pre as [|x pre IH]; intros b; simpl.
  - rewrite Hc. discriminate.
  - destruct (JS.isWhiteSpace x); [destruct b|]; try discriminate. apply IH.
Qed.

Lemma trimEnd_cons (c : N) (y : JS.str) :
  JS.isWhiteSpace c = false -> JS.trimEnd (c :: y) = c :: JS.trimEnd y.
Proof.
  intros Hc. simpl. rewrite Hc. destruct (JS.trimEnd y); reflexivity.
Qed.

Lemma trimEnd_white (c : N) (y : JS.str) :
  JS.isWhiteSpace c = true ->
  JS.trimEnd (c :: y) = match JS.trimEnd y with [] => [] | x :: y' => c :: x :: y' end.
Proof. intros Hc. simpl. rewrite Hc. reflexivity. Qed.

Lemma trimEnd_replaceRuns (b : bool) (g : JS.str) :
  JS.trimEnd (JS.replaceRuns JS.isWhiteSpace JS.SPACE b g)
  = JS.replaceRuns JS.isWhiteSpace JS.SPACE b (JS.trimEnd g).
Proof.
  revert b.
  induction g as [|c t IH]; intros b; auto.
  destruct (JS.isWhiteSpace c) eqn:E.
  - rewrite (trimEnd_white c t E).
    cbn [JS.replaceRuns]. rewrite E.
    destruct (JS.trimEnd t) as [|x t'] eqn:Et.
    + assert (Hx : JS.trimEnd (JS.replaceRuns JS.isWhiteSpace JS.SPACE true t) = [])
        by (rewrite IH; reflexivity).
      destruct b; [exact Hx|].
      rewrite (trimEnd_white JS.SPACE _ eq_refl), Hx. reflexivity.
    + cbn [JS.replaceRuns]. rewrite E.
      destruct b; [apply IH|].
      rewrite (trimEnd_white JS.SPACE _ eq_refl), IH.
      destruct (JS.replaceRuns JS.isWhiteSpace JS.SPACE true (x :: t')) eqn:Er;
        [|apply f_equal; symmetry; exact Er].
      exfalso.
      destruct (exists_last (l := x :: t')) as (pre & z & Hz); [discriminate|].
      rewrite Hz in Er.
      apply (replaceRuns_nonempty true pre z); [|exact Er].
      apply (trimEnd_last t pre z). congruence.
  - rewrite (trimEnd_cons c t E).
    cbn [JS.replaceRuns]. rewrite E.
    rewrite (trimEnd_cons c _ E), IH. reflexivity.
Qed.

(** Collapsing the runs and trimming the ends can be done in either order. *)
Lemma collapse_trim (g : JS.str) :
  JS.trim (JS.replaceRuns JS.isWhiteSpace JS.SPACE false g)
  = JS.replaceRuns JS.isWhiteSpace JS.SPACE false (JS.trim g).
Proof.
  unfold JS.trim.
  rewrite trimStart_replaceRuns. apply trimEnd_replaceRuns.
Qed.

(** C5, as the code has it.  Subject and sender name go through one and
    the same chain.  Its result is the input without its control units
    (tab, line feed and carriage return among them) and zero-width units,
    with every non-breaking space turned into a space and the white space
    at both ends cut off; every other unit, white space inside the text
    included, stays where it is, so a text that is clean already comes
    back as it is and no run is collapsed.  The body goes through a
    longer chain: its result is that of the first chain with every run of
    the white space that is left replaced by one space. *)
Theorem normalization_by_field (s : JS.str) :
  exists f b : JS.str,
    cleanSubject (JS.Str s) = JS.Normal (JS.Str f)
    /\ cleanName (JS.Str s) = JS.Normal (JS.Str f)
    /\ cleanBody (JS.Str s) = JS.Normal (JS.Str b)
    /\ f = JS.trim (keptUnits s)
    /\ b = JS.replaceRuns JS.isWhiteSpace JS.SPACE false f
    /\ stripped f /\ trimmed f
    /\ (stripped s -> trimmed s -> f = s)
    /\ stripped b /\ trimmed b /\ singleSpaced b.
Proof.
  exists (JS.trim (keptUnits s)),
         (JS.replaceRuns JS.isWhiteSpace JS.SPACE false (JS.trim (keptUnits s))).
  rewrite <- (chain_keptUnits s), <- collapse_trim.
  split; [reflexivity|]. split; [reflexivity|]. split; [reflexivity|].
  split; [reflexivity|]. split; [reflexivity|].
  split; [apply Forall_trim, stripped_chain|].
  split; [apply trim_trimmed|].
  split; [intros Hs Ht; apply field_chain_fixed; assumption|].
  split; [apply Forall_trim, Forall_replaceRuns;
          [apply stripped_space|apply stripped_chain]|].
  split; [apply trim_trimmed|].
  split.
  - apply Forall_trim, replaceRuns_spaces.
  - intros pre c d post H.
    eapply runsFree_adjacent; [apply body_runsFree|exact H].
Qed.

(** Tabs and line breaks are control units: the chains delete them, the
    body chain does not turn them into spaces; a line separator is no
    control unit and stays in a subject. *)
Example line_breaks_are_deleted :
  cleanBody (JS.Str [65; 10; 10; 66]%N) = JS.Normal (JS.Str [65; 66]%N)
  /\ cleanBody (JS.Str [65; 9; 66]%N) = JS.Normal (JS.Str [65; 66]%N)
  /\ cleanSubject (JS.Str [65; 10; 66]%N) = JS.Normal (JS.Str [65; 66]%N)
  /\ cleanSubject (JS.Str [65; 0x2028; 66]%N) = JS.Normal (JS.Str [65; 0x2028; 66]%N)
  /\ cleanBody (JS.Str [65; 0x2028; 0x2029; 66]%N) = JS.Normal (JS.Str [65; 32; 66]%N).
Proof. repeat split. Qed.

(** Cleaning is idempotent: a cleaned subject or sender name passes the
    field chain unchanged, and a cleaned body passes both the body chain
    and the field chain unchanged. *)
Theorem cleaning_idempotent (s : JS.str) :
  exists f b : JS.str,
    cleanSubject (JS.Str s) = JS.Normal (JS.Str f)
    /\ cleanSubject (JS.Str f) = JS.Normal (JS.Str f)
    /\ cleanName (JS.Str f) = JS.Normal (JS.Str f)
    /\ cleanBody (JS.Str s) = JS.Normal (JS.Str b)
    /\ cleanBody (JS.Str b) = JS.Normal (JS.Str b)
    /\ cleanSubject (JS.Str b) = JS.Normal (JS.Str b).
Proof.
  set (g := JS.replaceEach JS.isNbsp JS.SPACE
              (JS.removeAll JS.isZeroWidth (JS.removeAll JS.isControl s))).
  set (f := JS.trim g).
  set (b := JS.trim (JS.replaceRuns JS.isWhiteSpace JS.SPACE false g)).
  assert (Hf : stripped f) by (apply Forall_trim, stripped_chain).
  assert (Hb : stripped b).
  { apply Forall_trim, Forall_replaceRuns; [apply stripped_space|apply stripped_chain]. }
  assert (Ff : JS.trim (JS.replaceEach JS.isNbsp JS.SPACE
                 (JS.removeAll JS.isZeroWidth (JS.removeAll JS.isControl f))) = f)
    by (apply field_chain_fixed; [exact Hf|apply trim_trimmed]).
  assert (Fb : JS.trim (JS.replaceEach JS.isNbsp JS.SPACE
                 (JS.removeAll JS.isZeroWidth (JS.removeAll JS.isControl b))) = b)
    by (apply field_chain_fixed; [exact Hb|apply trim_trimmed]).
  exists f, b.
  split; [reflexivity|].
  split; [unfold cleanSubject; simpl; rewrite Ff; reflexivity|].
  split; [unfold cleanName; simpl; rewrite Ff; reflexivity|].
  split; [reflexivity|].
  split; [|unfold cleanSubject; simpl; rewrite Fb; reflexivity].
  unfold cleanBody. simpl.
  destruct (stripped_parts b Hb) as (Hc & Hz & Hn).
  rewrite (removeAll_fixed _ b Hc), (removeAll_fixed _ b Hz), (replaceEach_fixed _ _ b Hn).
  rewrite replaceRuns_fixed.
  - rewrite trim_fixed by apply trim_trimmed. reflexivity.
  - apply body_runsFree.
  - apply Forall_trim, replaceRuns_spaces.
Qed.

Lemma find_none_filter {A : Type} (f : A -> bool) (l : list A) :
  find f l = None -> filter f l = [].
Proof.
  induction l as [|a l IH]; simpl; auto.
  destruct (f a); [discriminate|auto].
Qed.

Lemma closed_page_selectors (d : Document) :
  isMessageOpen d = false ->
  querySelector h2_hP d = None /\ querySelectorAll div_a3s d = [].
Proof.
  unfold isMessageOpen, orElse.
  destruct (querySelector h2_hP d); [discriminate|].
  destruct (querySelector div_a3s d) eqn:E; [discriminate|].
  intros _. split; [reflexivity|]. apply find_none_filter, E.
Qed.

(** When [isMessageOpen] is false nothing is read anywhere: the body is
    empty, the identity is 'no-email', auto-read and its timeout leave the
    world as it is, and the popup is told that no email is open. *)
Theorem closed_page_reads_nothing (p : Page) (w : World) :
  isMessageOpen (document p) = false ->
  getBody (document p) = JS.Normal (JS.Str [])
  /\ getCurrentEmailId p = noEmail
  /\ autoReadCurrentEmail p w = w
  /\ inFlight (autoReadTimeout p w) = inFlight w
  /\ onMessage "EXTRACT_EMAIL" (document p)
     = Some (Failed "No email open. Open a message in Gmail and try again.").
Proof.
  intros H.
  destruct (closed_page_selectors _ H) as [_ Hb].
  repeat split.
  - unfold getBody. rewrite Hb. reflexivity.
  - unfold getCurrentEmailId. rewrite H. reflexivity.
  - unfold autoReadCurrentEmail. rewrite H. reflexivity.
  - unfold autoReadTimeout. destruct (timers w); [reflexivity|].
    rewrite H. reflexivity.
  - unfold onMessage. simpl. rewrite H. reflexivity.
Qed.

Lemma closed_page_reads_nothing_witness :
  autoReadCurrentEmail Scenario.inbox (initializeWidget Scenario.inbox)
  = initializeWidget Scenario.inbox.
Proof.
  apply (closed_page_reads_nothing Scenario.inbox (initializeWidget Scenario.inbox)).
  reflexivity.
Defined.

Lemma summaryBegun_inFlight (d : EmailData) (w : World) :
  inFlight (summaryBegun d w) = inFlight w ++ [d].
Proof. reflexivity. Qed.

(** The popup and auto-read agree: with no audio cached, EXTRACT_EMAIL is
    answered with data exactly when auto-read on the same page begins a
    summary, and the data are the ones summarised. *)
Theorem popup_agrees_with_autoread (p : Page) (w : World) (data : EmailData) :
  hasAudioFile (widget w) = false ->
  (onMessage "EXTRACT_EMAIL" (document p) = Some (Extracted data)
   <-> autoReadCurrentEmail p w = summaryBegun data w).
Proof.
  intros Ha.
  destruct (extract_total (document p)) as (s & n & e & b & Hx & _).
  assert (Hparts : getSubject (document p) = JS.Normal (JS.Str s)
                   /\ getSender (document p) = JS.Normal (mkSender (JS.Str n) (JS.Str e))
                   /\ getBody (document p) = JS.Normal (JS.Str b)).
  { unfold extract in Hx.
    destruct (getSubject (document p)) as [s'|]; [|discriminate].
    destruct (getSender (document p)) as [n'|]; [|discriminate].
    destruct (getBody (document p)) as [b'|]; [|discriminate].
    simpl in Hx. injection Hx as -> -> ->. auto. }
  destruct Hparts as (Hs & Hn & Hb).
  set (d := mkEmailData (JS.Str s) (mkSender (JS.Str n) (JS.Str e)) (JS.Str b)) in *.
  unfold onMessage, autoReadCurrentEmail.
  rewrite Ha, Hx, Hs, Hn, Hb.
  change (String.eqb "EXTRACT_EMAIL" "PING") with false.
  change (String.eqb "EXTRACT_EMAIL" "EXTRACT_EMAIL") with true.
  cbv iota.
  destruct (isMessageOpen (document p)); cbn [negb].
  - cbn [JS.bind name].
    change (negb (JS.truthy (JS.Str s)) && negb (JS.truthy (JS.Str n))
            && negb (JS.truthy (JS.Str b))) with (unreadable d).
    destruct (unreadable d).
    + split; [discriminate|].
      intros H. apply (f_equal inFlight) in H.
      rewrite summaryBegun_inFlight in H. simpl in H.
      apply (f_equal (@List.length _)) in H. rewrite length_app in H. simpl in H. lia.
    + split.
      * intros [= <-]. reflexivity.
      * intros H. apply (f_equal inFlight) in H.
        rewrite summaryBegun_inFlight in H. simpl in H.
        apply app_inv_head in H. injection H as <-. reflexivity.
  - split; [discriminate|].
    intros H. apply (f_equal inFlight) in H.
    rewrite summaryBegun_inFlight in H.
    apply (f_equal (@List.length _)) in H. rewrite length_app in H. simpl in H. lia.
Qed.

Lemma popup_agrees_with_autoread_witness :
  onMessage "EXTRACT_EMAIL" (document Scenario.pageA) = Some (Extracted Scenario.dataA).
Proof.
  apply (popup_agrees_with_autoread Scenario.pageA (initializeWidget Scenario.inbox)
           Scenario.dataA); reflexivity.
Defined.

(* ================================================================== *)
(** ** More on the widget and its clicks *)
(* ================================================================== *)

(** With audio cached, [handlePlayPause] is a toggle: afterwards there
    is an audio element, [isPlaying] says that it runs and [isPaused]
    that it does not; an element that was there keeps its source and
    flips, a missing one is created from the cached URL and played; the
    cache is not touched, and two more calls come back to the same state. *)
Theorem handlePlayPause_toggles (s : Widget.State) :
  hasAudioFile s = true ->
  let s' := handlePlayPause s in
  speechData s' = speechData s
  /\ (exists a, currentAudio s' = Some a
        /\ isPlaying s' = negb (paused a) /\ isPaused s' = paused a
        /\ match currentAudio s with
           | Some a0 => src a = src a0 /\ isPlaying s' = negb (isPlaying s)
           | None =>
               isPlaying s' = true
               /\ exists d, speechData s = Some d /\ src a = JS.toString (audioFile d)
           end)
  /\ handlePlayPause (handlePlayPause s') = s'.
Proof.
  intros H s'. subst s'.
  destruct s as [ic dl [[v]|] au pl pa]; [|discriminate].
  destruct v as [| |[|c u]]; try discriminate.
  clear H.
  split; [|split].
  - destruct au, pl, pa, ic, dl; reflexivity.
  - destruct au as [a0|].
    + destruct pl; [|destruct pa]; destruct ic, dl; simpl; eexists; repeat split.
    + destruct ic, dl; simpl; eexists; repeat split; eauto.
  - destruct au as [a0|], pl, pa, ic as [i|], dl as [b|]; reflexivity.
Qed.

Lemma handlePlayPause_toggles_witness :
  isPlaying (handlePlayPause
               (mkState (Some (mkIcon true false false PlayGlyph)) (Some true)
                        (Some Scenario.speechA) None false false)) = true.
Proof.
  pose proof (handlePlayPause_toggles
                (mkState (Some (mkIcon true false false PlayGlyph)) (Some true)
                         (Some Scenario.speechA) None false false) eq_refl) as H.
  destruct H as (_ & (a & _ & _ & _ & Hp & _) & _).
  exact Hp.
Defined.

Lemma idle_click (p : Page) (w : World) (i : Icon) (d : EmailData) :
  icon (widget w) = Some i -> active i = false -> loading i = false ->
  isMessageOpen (document p) = true ->
  extract (document p) = JS.Normal d -> unreadable d = false ->
  handleIconClick p w = summaryBegun d (withWidget (withSpeech None) w).
Proof.
  intros Hi Ha Hl Ho Hx Hu.
  unfold handleIconClick. rewrite Hi, Ha, Hl.
  unfold autoReadCurrentEmail. rewrite Ho. simpl.
  rewrite Hx, Hu.
  destruct w as [[ic dl sd au pl pa] id fl tm lg]. simpl in Hi. subst ic.
  reflexivity.
Qed.

(** A click on the idle icon (neither [active] nor [loading]) over a
    readable message begins one summary of the extracted data and throws
    the cached audio away, whether or not there was one; until the answer
    comes there is nothing to download. *)
Theorem idle_click_regenerates (p : Page) (w : World) (i : Icon) (d : EmailData) :
  icon (widget w) = Some i -> active i = false -> loading i = false ->
  isMessageOpen (document p) = true ->
  extract (document p) = JS.Normal d -> unreadable d = false ->
  let w' := handleIconClick p w in
  inFlight w' = inFlight w ++ [d]
  /\ filter isSummaryCall (log w')
     = filter isSummaryCall (log w) ++ [EvGenerateSummary (emailContentOf d)]
  /\ speechData (widget w') = None
  /\ handleDownloadClick (widget w') = None
  /\ requesting w' = true
  /\ hasClass active (widget w') = true.
Proof.
  intros Hi Ha Hl Ho Hx Hu w'. subst w'.
  rewrite (idle_click p w i d Hi Ha Hl Ho Hx Hu).
  destruct w as [[ic dl sd au pl pa] id fl tm lg]. simpl in Hi. subst ic.
  split; [reflexivity|].
  split; [apply summary_logged; reflexivity|].
  repeat split.
Qed.

Lemma idle_click_regenerates_witness :
  inFlight (handleIconClick Scenario.pageA
              (withWidget (withSpeech (Some Scenario.speechA)) (initializeWidget Scenario.inbox)))
  = [Scenario.dataA].
Proof.
  apply (idle_click_regenerates Scenario.pageA
           (withWidget (withSpeech (Some Scenario.speechA)) (initializeWidget Scenario.inbox))
           (mkIcon false false false SpeakerGlyph) Scenario.dataA);
    reflexivity.
Defined.

(** After the audio has ended (and the icon is not loading), or after
    the audio element has reported an error, the next click does not
    replay the cached audio: it discards it and begins a new summary. *)
Theorem click_after_audio_event_regenerates (p : Page) (w : World) (i : Icon) (d : EmailData) :
  icon (widget w) = Some i ->
  isMessageOpen (document p) = true ->
  extract (document p) = JS.Normal d -> unreadable d = false ->
  (loading i = false ->
     inFlight (handleIconClick p (withWidget onEnded w)) = inFlight w ++ [d]
     /\ speechData (widget (handleIconClick p (withWidget onEnded w))) = None)
  /\ inFlight (handleIconClick p (withWidget onError w)) = inFlight w ++ [d]
  /\ speechData (widget (handleIconClick p (withWidget onError w))) = None.
Proof.
  intros Hi Ho Hx Hu.
  destruct w as [[ic dl sd au pl pa] id fl tm lg]. simpl in Hi. subst ic.
  split; [intros Hl; split|split].
  - rewrite (idle_click p _ (mkIcon false (loading i) false SpeakerGlyph) d);
      auto; try (destruct dl; reflexivity).
  - rewrite (idle_click p _ (mkIcon false (loading i) false SpeakerGlyph) d);
      auto; try (destruct dl; reflexivity).
  - rewrite (idle_click p _ (mkIcon false false false SpeakerGlyph) d);
      auto; try (destruct dl; reflexivity).
  - rewrite (idle_click p _ (mkIcon false false false SpeakerGlyph) d);
      auto; try (destruct dl; reflexivity).
Qed.

Lemma click_after_audio_event_regenerates_witness :
  inFlight (handleIconClick Scenario.pageA
              (withWidget onError
                 (withWidget (withSpeech (Some Scenario.speechA))
                             (initializeWidget Scenario.inbox))))
  = [Scenario.dataA].
Proof.
  apply (click_after_audio_event_regenerates Scenario.pageA
           (withWidget (withSpeech (Some Scenario.speechA)) (initializeWidget Scenario.inbox))
           (mkIcon false false false SpeakerGlyph) Scenario.dataA);
    reflexivity.
Defined.

Lemma active_click_without_audio (p : Page) (w : World) :
  hasClass active (widget w) = true -> hasAudioFile (widget w) = false ->
  handleIconClick p w = w.
Proof.
  unfold hasClass, handleIconClick.
  destruct (icon (widget w)) as [i|]; [|discriminate].
  intros -> Ha. unfold withWidget, handlePlayPause. rewrite Ha. simpl.
  destruct w; reflexivity.
Qed.

(** A click on the idle icon while no message is open leaves the icon
    in [active] and [loading] with no summary begun and nothing sent, and
    every later click, on whatever page, changes nothing. *)
Theorem click_without_message_sticks (p : Page) (w : World) (i : Icon) :
  icon (widget w) = Some i -> active i = false -> loading i = false ->
  isMessageOpen (document p) = false ->
  let w' := handleIconClick p w in
  requesting w' = true
  /\ inFlight w' = inFlight w /\ log w' = log w /\ timers w' = timers w
  /\ speechData (widget w') = None
  /\ (forall p', handleIconClick p' w' = w').
Proof.
  intros Hi Ha Hl Ho w'. subst w'.
  assert (E : handleIconClick p w
              = withWidget (withSpeech None)
                  (withWidget (withIcon (fun i => setLoading true (setActive true i))) w)).
  { unfold handleIconClick. rewrite Hi, Ha, Hl.
    unfold autoReadCurrentEmail. rewrite Ho. reflexivity. }
  rewrite E.
  destruct w as [[ic dl sd au pl pa] id fl tm lg]. simpl in Hi. subst ic.
  repeat split.
Qed.

Lemma click_without_message_sticks_witness :
  requesting (handleIconClick Scenario.inbox (initializeWidget Scenario.inbox)) = true.
Proof.
  apply (click_without_message_sticks Scenario.inbox (initializeWidget Scenario.inbox)
           (mkIcon false false false SpeakerGlyph));
    reflexivity.
Defined.

(** An answer that reports success without a playable audio URL only
    takes class [loading] away; where the icon was [active] with nothing
    cached, it stays so and every later click changes nothing. *)
Theorem summary_without_audio_sticks (result : SummaryResult) (p : Page) (w : World) :
  success result = true ->
  (forall sp, speech result = Some sp -> JS.truthy (audioFile sp) = false) ->
  hasClass active (widget w) = true -> hasAudioFile (widget w) = false ->
  let w' := withWidget (applyResult result) w in
  widget w' = withIcon (setLoading false) (widget w)
  /\ handleIconClick p w' = w'.
Proof.
  intros Hs Hsp Ha Hf w'. subst w'.
  assert (E : applyResult result (widget w) = withIcon (setLoading false) (widget w)).
  { unfold applyResult. rewrite Hs.
    destruct (speech result) as [sp|]; [|reflexivity].
    rewrite (Hsp sp eq_refl). reflexivity. }
  split; [exact E|].
  apply active_click_without_audio; simpl; rewrite E.
  - unfold hasClass in *. simpl. destruct (icon (widget w)); [exact Ha|discriminate].
  - exact Hf.
Qed.

Lemma summary_without_audio_sticks_witness :
  handleIconClick Scenario.pageA
    (withWidget (applyResult (mkResult true None JS.Undefined))
       (run (initializeWidget Scenario.inbox) [Poll Scenario.pageA; AutoReadTimeout Scenario.pageA]))
  = withWidget (applyResult (mkResult true None JS.Undefined))
      (run (initializeWidget Scenario.inbox) [Poll Scenario.pageA; AutoReadTimeout Scenario.pageA]).
Proof.
  apply (summary_without_audio_sticks (mkResult true None JS.Undefined) Scenario.pageA
           (run (initializeWidget Scenario.inbox)
                [Poll Scenario.pageA; AutoReadTimeout Scenario.pageA]));
    [reflexivity|discriminate|reflexivity|reflexivity].
Defined.

(* ================================================================== *)
(** ** More on message-change detection *)
(* ================================================================== *)


Lemma resetWidgetState_keeps_speech (s : Widget.State) :
  speechData (resetWidgetState s) = speechData s.
Proof. destruct s as [[i|] [b|] sd au pl pa]; reflexivity. Qed.

Lemma checkForEmailChange_keeps_speech (p : Page) (w : World) :
  speechData (widget (checkForEmailChange p w)) = speechData (widget w)
  /\ inFlight (checkForEmailChange p w) = inFlight w.
Proof.
  unfold checkForEmailChange.
  destruct (str_eqb (getCurrentEmailId p) (currentEmailId w)); [auto|].
  destruct (negb (str_eqb (getCurrentEmailId p) noEmail));
    unfold logged, withTimers, withWidget, withEmailId; cbn [widget inFlight];
    rewrite resetWidgetState_keeps_speech; auto.
Qed.

(** Audio cached for one message survives the change to another: the
    reset of the change check keeps [window.speechData], so the auto-read
    of the new message finds audio "already available" and begins no
    summary. *)
Theorem cached_audio_survives_message_change (p p' : Page) (w : World) :
  hasAudioFile (widget w) = true ->
  let w1 := checkForEmailChange p w in
  speechData (widget w1) = speechData (widget w)
  /\ autoReadCurrentEmail p' w1 = w1
  /\ inFlight (autoReadTimeout p' w1) = inFlight w
  /\ speechData (widget (autoReadTimeout p' w1)) = speechData (widget w).
Proof.
  intros H w1.
  destruct (checkForEmailChange_keeps_speech p w) as [Hs Hf].
  fold w1 in Hs, Hf.
  assert (Ha : hasAudioFile (widget w1) = true).
  { unfold hasAudioFile in *. rewrite Hs. exact H. }
  assert (E : autoReadCurrentEmail p' w1 = w1).
  { unfold autoReadCurrentEmail. rewrite Ha.
    destruct (isMessageOpen (document p')); reflexivity. }
  split; [exact Hs|]. split; [exact E|].
  unfold autoReadTimeout.
  destruct (timers w1) as [|n]; [auto|].
  assert (E' : autoReadCurrentEmail p' (withTimers n w1) = withTimers n w1).
  { unfold autoReadCurrentEmail. simpl. rewrite Ha.
    destruct (isMessageOpen (document p')); reflexivity. }
  destruct (isMessageOpen (document p')); rewrite ?E'; simpl; auto.
Qed.

Lemma cached_audio_survives_message_change_witness :
  inFlight
    (autoReadTimeout Scenario.pageB
       (checkForEmailChange Scenario.pageB
          (run (initializeWidget Scenario.inbox)
               [Poll Scenario.pageA; AutoReadTimeout Scenario.pageA; Settles 0 Scenario.netUp])))
  = inFlight
      (run (initializeWidget Scenario.inbox)
           [Poll Scenario.pageA; AutoReadTimeout Scenario.pageA; Settles 0 Scenario.netUp]).
Proof.
  apply (cached_audio_survives_message_change Scenario.pageB Scenario.pageB
           (run (initializeWidget Scenario.inbox)
                [Poll Scenario.pageA; AutoReadTimeout Scenario.pageA; Settles 0 Scenario.netUp])).
  reflexivity.
Defined.

(** With a message open, a non-empty [th] parameter of the URL is the
    identity, whatever the document and [message_id] are; two pages that
    share it are one message for the change check, so the second check
    changes nothing. *)
Theorem thread_parameter_is_the_identity (p p' : Page) (c : N) (t : JS.str) (w : World) :
  isMessageOpen (document p) = true -> isMessageOpen (document p') = true ->
  urlParam "th" p = JS.Str (c :: t) -> urlParam "th" p' = JS.Str (c :: t) ->
  getCurrentEmailId p = c :: t
  /\ checkForEmailChange p' (checkForEmailChange p w) = checkForEmailChange p w.
Proof.
  intros Ho Ho' Ht Ht'.
  assert (E : forall q, isMessageOpen (document q) = true ->
                        urlParam "th" q = JS.Str (c :: t) -> getCurrentEmailId q = c :: t).
  { intros q Hq Hth. unfold getCurrentEmailId. rewrite Hq, Hth. reflexivity. }
  split; [apply E; auto|].
  apply checkForEmailChange_same.
  rewrite checkForEmailChange_records, (E p), (E p'); auto.
Qed.

Lemma thread_parameter_is_the_identity_witness :
  getCurrentEmailId Scenario.pageA = JS.lit "A".
Proof.
  apply (thread_parameter_is_the_identity Scenario.pageA
           (mkPage (document Scenario.pageB) (search Scenario.pageA)) 65%N []
           (initializeWidget Scenario.inbox));
    reflexivity.
Defined.





(* ================================================================== *)
(** ** More on the summary client *)
(* ================================================================== *)

Lemma appended_logged (e : Event) (evs : list Event) (w : World) :
  appended evs (logged e w) = appended (e :: evs) w.
Proof. unfold appended, logged. simpl. rewrite <- app_assoc. reflexivity. Qed.

Lemma probeServer_up (net : Network) (h : Response) (w : World) :
  health net = Resolved h -> ok h = true ->
  probeServer net w = (JS.Normal true, logged EvGetHealth w).
Proof.
  intros Hh Ho. unfold probeServer, fetchHealth, catchM, bindM, emit, ret.
  rewrite Hh, Ho. reflexivity.
Qed.

Lemma generateSummary_failed_probe (net : Network) (d : EmailData) (w : World) :
  healthFails net = true ->
  generateSummary net d w = (JS.Normal tt, logged EvGetHealth (withWidget showFailure w)).
Proof.
  intros H. unfold healthFails in H.
  unfold generateSummary, probeServer, fetchHealth.
  unfold catchM at 1. unfold bindM at 1. unfold catchM at 1.
  unfold bindM at 1. unfold bindM at 1. unfold emit at 1.
  destruct (health net) as [r|e].
  - apply negb_true_iff in H. unfold ret at 1. rewrite H.
    unfold throw at 1. cbv beta iota.
    change (String.eqb (JS.name (newError _)) "TypeError") with false.
    cbv beta iota. rewrite andb_false_l, fallback_probe_throws.
    reflexivity.
  - unfold throw at 1. cbv beta iota.
    destruct (String.eqb (JS.name e) "TypeError"
              && JS.includes "Failed to fetch" (JS.message e)).
    + unfold bindM, onWidget, throw, withWidget, logged. simpl.
      rewrite showFailure_absorbs. reflexivity.
    + rewrite fallback_probe_throws. reflexivity.
Qed.

(** What the retry loop can do: it ends with a 2xx answer to one of its
    POSTs or it throws, and its log is one of three. *)
Lemma retryLoop_outcomes (net : Network) (c : JS.str) (w : World) :
  exists evs,
    snd (retryLoop net c 3 (mkVars None None) w) = appended evs w
    /\ In evs (tl (episodeTraces c))
    /\ ((exists k r le,
           fst (retryLoop net c 3 (mkVars None None) w) = JS.Normal (mkVars (Some r) le)
           /\ summarize net k = Resolved r /\ ok r = true)
        \/ (exists e, fst (retryLoop net c 3 (mkVars None None) w) = JS.Throw e
                      /\ evs = [EvPostSummarize 1 c; EvWait 2000; EvPostSummarize 2 c;
                                EvWait 4000; EvPostSummarize 3 c]
                      /\ attemptFails net 1 = true /\ attemptFails net 2 = true
                      /\ attemptFails net 3 = true)).
Proof.
  unfold retryLoop, bindM, emit, ret, throw, attemptFails. simpl.
  destruct (summarize net 1) as [r1|e1] eqn:E1; [destruct (ok r1) eqn:O1|]; simpl;
    [ exists [EvPostSummarize 1 c]; split; [reflexivity|]; split; [simpl; tauto|];
      left; exists 1, r1; eexists; repeat split; eauto
    | | ];
    (destruct (summarize net 2) as [r2|e2] eqn:E2; [destruct (ok r2) eqn:O2|]; simpl;
     [ exists [EvPostSummarize 1 c; EvWait 2000; EvPostSummarize 2 c];
       split; [unfold appended, logged; simpl; rewrite <- !app_assoc; reflexivity|];
       split; [simpl; tauto|];
       left; exists 2, r2; eexists; repeat split; eauto
     | | ];
     (exists [EvPostSummarize 1 c; EvWait 2000; EvPostSummarize 2 c; EvWait 4000;
              EvPostSummarize 3 c];
      destruct (summarize net 3) as [r3|e3] eqn:E3; [destruct (ok r3) eqn:O3|]; simpl;
      (split; [unfold appended, logged; simpl; rewrite <- !app_assoc; reflexivity|]);
      (split; [simpl; tauto|]);
      [ left; exists 3, r3; eexists; repeat split; eauto
      | right; eexists; repeat split; eauto
      | right; eexists; repeat split; eauto ])).
Qed.

(** Every episode in one statement: the call resolves; identity, pending
    calls and timers are as before; the log gains the probe and one of
    the four traces; the widget shows the failure outcome or has the JSON
    of a 2xx answer applied. *)
Lemma generateSummary_outcome (net : Network) (d : EmailData) (w : World) :
  exists evs W,
    generateSummary net d w
    = (JS.Normal tt,
       mkWorld W (currentEmailId w) (inFlight w) (timers w) (log w ++ EvGetHealth :: evs))
    /\ In evs (episodeTraces (emailContentOf d))
    /\ (W = showFailure (widget w)
        \/ exists k r result,
             summarize net k = Resolved r /\ ok r = true
             /\ json r = JS.Normal result /\ W = applyResult result (widget w)).
Proof.
  destruct (healthFails net) eqn:Hf.
  - exists [], (showFailure (widget w)).
    rewrite (generateSummary_failed_probe net d w Hf).
    split; [reflexivity|]. split; [simpl; auto|auto].
  - unfold healthFails in Hf.
    destruct (health net) as [h|] eqn:Hh; [|discriminate].
    apply negb_false_iff in Hf.
    destruct (retryLoop_outcomes net (emailContentOf d) (logged EvGetHealth w))
      as (evs & Hsnd & Hin & Hres).
    rewrite appended_logged in Hsnd.
    assert (Hin' : In evs (episodeTraces (emailContentOf d))) by (right; exact Hin).
    unfold generateSummary.
    unfold catchM at 1. unfold bindM at 1.
    rewrite (probeServer_up net h w Hh Hf).
    unfold bindM. cbn beta iota delta [negb].
    destruct (retryLoop net (emailContentOf d) 3 (mkVars None None) (logged EvGetHealth w))
      as [[v|e] w2] eqn:ER; simpl in Hsnd, Hres; subst w2.
    + destruct Hres as [(k & r & le & Hv & Hk & Hok)|(e & He & _)]; [|discriminate].
      injection Hv as ->. cbn [response]. rewrite Hok.
      unfold lift, onWidget.
      destruct (json r) as [result|e] eqn:Hj.
      * exists evs, (applyResult result (widget w)).
        split; [reflexivity|]. split; [exact Hin'|].
        right. exists k, r, result. auto.
      * exists evs, (showFailure (widget w)).
        split; [reflexivity|]. split; [exact Hin'|auto].
    + exists evs, (showFailure (widget w)).
      split; [reflexivity|]. split; [exact Hin'|auto].
Qed.

Lemma settled_not_loading (s : Widget.State) (result : SummaryResult) :
  hasClass loading (showFailure s) = false
  /\ hasClass loading (applyResult result s) = false.
Proof.
  unfold applyResult.
  destruct s as [[i|] [b|] sd au pl pa], (success result), (speech result) as [sp|];
    try destruct (JS.truthy (audioFile sp)); split; reflexivity.
Qed.

Lemma autoRead_keeps_pending (p : Page) (w : World) :
  exists post, inFlight (autoReadCurrentEmail p w) = (inFlight w ++ post)%list.
Proof.
  unfold autoReadCurrentEmail.
  destruct (negb (isMessageOpen (document p))); [exists []; symmetry; apply app_nil_r|].
  destruct (hasAudioFile (widget w)); [exists []; symmetry; apply app_nil_r|].
  destruct (extract (document p)) as [d|e]; [|exists []; symmetry; apply app_nil_r].
  destruct (unreadable d); [exists []; symmetry; apply app_nil_r|].
  exists [d]. reflexivity.
Qed.

Lemma step_keeps_pending (i : Input) (w : World) :
  noneSettles [i] = true ->
  exists post, inFlight (step w i) = (inFlight w ++ post)%list.
Proof.
  destruct i as [p|p|p|p|k net]; cbn [noneSettles forallb andb step];
    try discriminate; intros _.
  - unfold handleIconClick.
    destruct (icon (widget w)) as [ic|]; [|exists []; symmetry; apply app_nil_r].
    destruct (active ic); [exists []; symmetry; apply app_nil_r|].
    destruct (loading ic); [exists []; symmetry; apply app_nil_r|].
    destruct (autoRead_keeps_pending p
                (withWidget (withSpeech None)
                   (withWidget (withIcon (fun i => setLoading true (setActive true i))) w)))
      as (post & E).
    exists post. exact E.
  - exists []. rewrite app_nil_r. unfold checkForEmailChange.
    destruct (str_eqb _ _); [reflexivity|]. destruct (negb _); reflexivity.
  - exists []. rewrite app_nil_r. unfold checkForEmailChange.
    destruct (str_eqb _ _); [reflexivity|]. destruct (negb _); reflexivity.
  - unfold autoReadTimeout.
    destruct (timers w) as [|n]; [exists []; symmetry; apply app_nil_r|].
    destruct (isMessageOpen (document p)); [|exists []; symmetry; apply app_nil_r].
    destruct (autoRead_keeps_pending p (withTimers n w)) as (post & E).
    exists post. exact E.
Qed.

Lemma run_keeps_pending (l : list Input) (w : World) :
  noneSettles l = true ->
  exists post, inFlight (run w l) = (inFlight w ++ post)%list.
Proof.
  revert w. induction l as [|i l IH]; intros w H.
  - exists []. symmetry. apply app_nil_r.
  - unfold noneSettles in H. cbn [forallb] in H.
    apply andb_true_iff in H. destruct H as (Hi & Hl).
    destruct (step_keeps_pending i w) as (post1 & E1).
    { unfold noneSettles. cbn [forallb]. rewrite Hi. reflexivity. }
    destruct (IH (step w i) Hl) as (post2 & E2).
    exists (post1 ++ post2)%list.
    unfold run in *. cbn [fold_left]. rewrite E2, E1. symmetry. apply app_assoc.
Qed.

Lemma clicks_absorbed (ps : list Page) (w : World) :
  hasClass active (widget w) = true -> hasAudioFile (widget w) = false ->
  run w (map Click ps) = w.
Proof.
  intros Ha Hf. induction ps as [|p ps IH]; [reflexivity|].
  unfold run in *. cbn [map fold_left step].
  rewrite (active_click_without_audio p w Ha Hf). exact IH.
Qed.

(** An episode comes to an end with its requests and with nothing else.
    Where every request of the episode ends, resolved or rejected, the
    call resolves without an exception, the icon is no longer [loading]
    afterwards, and identity, pending calls and timers are untouched.
    The code sets no working timeout and never aborts a request: as long
    as no episode is settled the call stays among the pending ones,
    whatever clicks, polls, mutations and auto-read timeouts come, and
    where it was begun with the icon [active] and [loading] and nothing
    playable cached, clicks change nothing, so the icon stays [loading]. *)
Theorem episode_ends_only_with_its_requests (net : Network) (d : EmailData) (w : World) :
  (fst (generateSummary net d w) = JS.Normal tt
   /\ requesting (snd (generateSummary net d w)) = false
   /\ currentEmailId (snd (generateSummary net d w)) = currentEmailId w
   /\ inFlight (snd (generateSummary net d w)) = inFlight w
   /\ timers (snd (generateSummary net d w)) = timers w)
  /\ (forall l, noneSettles l = true ->
        exists post, inFlight (run (beginSummary d w) l) = (inFlight w ++ d :: post)%list)
  /\ (hasClass active (widget w) = true -> hasClass loading (widget w) = true ->
      hasAudioFile (widget w) = false ->
      forall ps, run (beginSummary d w) (map Click ps) = beginSummary d w
                 /\ requesting (run (beginSummary d w) (map Click ps)) = true).
Proof.
  split; [|split].
  - destruct (generateSummary_outcome net d w) as (evs & W & E & _ & HW).
    rewrite E. simpl. repeat split.
    unfold requesting. simpl.
    destruct HW as [->|(k & r & result & _ & _ & _ & ->)]; apply settled_not_loading.
    exact (mkResult false None JS.Undefined).
  - intros l Hl.
    destruct (run_keeps_pending l (beginSummary d w) Hl) as (post & E).
    exists post. rewrite E. unfold beginSummary. cbn [inFlight logged withInFlight].
    rewrite <- app_assoc. reflexivity.
  - intros Ha Hl Hf ps.
    rewrite (clicks_absorbed ps (beginSummary d w)); [|exact Ha|exact Hf].
    split; [reflexivity|exact Hl].
Qed.

Lemma episode_ends_only_with_its_requests_witness :
  requesting
    (run (beginSummary Scenario.dataA
            (withWidget (withIcon (fun i => setLoading true (setActive true i)))
                        (initializeWidget Scenario.inbox)))
         (map Click [Scenario.pageA; Scenario.pageB])) = true.
Proof.
  apply (episode_ends_only_with_its_requests Scenario.netUp Scenario.dataA
           (withWidget (withIcon (fun i => setLoading true (setActive true i)))
                       (initializeWidget Scenario.inbox)));
    reflexivity.
Defined.

(** A call whose request is still out while the user clicks and the
    page is polled: it is pending and the icon is [loading], however long
    the run. *)
Example hanging_request_keeps_loading :
  let w := run (initializeWidget Scenario.inbox)
               [Poll Scenario.pageA; AutoReadTimeout Scenario.pageA;
                Click Scenario.pageA; Poll Scenario.pageA; Click Scenario.pageA;
                Mutation Scenario.pageA; Click Scenario.pageA] in
  inFlight w = [Scenario.dataA] /\ requesting w = true.
Proof. split; reflexivity. Qed.

(** The traffic of an episode: one GET of the health endpoint, then
    nothing, or one to three POSTs that all carry the same content, with
    a wait of 2000 ms before the second and of 4000 ms before the third;
    the fallback request is never sent, and the waits add up to 6 s at
    most. *)
Theorem episode_traffic (net : Network) (d : EmailData) (w : World) :
  exists evs,
    log (snd (generateSummary net d w)) = log w ++ EvGetHealth :: evs
    /\ In evs (episodeTraces (emailContentOf d))
    /\ List.length (filter isPost evs) <= 3
    /\ (totalWait evs <= 6000)%Z
    /\ ~ In EvXhrSend evs
    /\ (healthFails net = true -> evs = []).
Proof.
  destruct (healthFails net) eqn:Hf.
  - exists []. rewrite (generateSummary_failed_probe net d w Hf).
    simpl. repeat split; auto; try lia. unfold totalWait. simpl. lia.
  - destruct (generateSummary_outcome net d w) as (evs & W & E & Hin & _).
    exists evs. rewrite E. simpl.
    split; [reflexivity|]. split; [exact Hin|].
    simpl in Hin.
    destruct Hin as [<-|[<-|[<-|[<-|[]]]]]; unfold totalWait; simpl;
      (repeat split; try lia; try discriminate);
      intros H; repeat (destruct H as [H|H]; [discriminate|]); exact H.
Qed.

Lemma applyResult_speech (result : SummaryResult) (s : Widget.State) :
  speechData (applyResult result s) = speechData s
  \/ exists sp, success result = true /\ speech result = Some sp
                /\ JS.truthy (audioFile sp) = true
                /\ speechData (applyResult result s) = Some sp.
Proof.
  unfold applyResult.
  destruct (success result) eqn:Hs.
  - destruct (speech result) as [sp|] eqn:Hsp.
    + destruct (JS.truthy (audioFile sp)) eqn:Ht.
      * right. exists sp. repeat split; auto.
        destruct s as [[i|] [b|] sd au pl pa]; reflexivity.
      * left. destruct s as [[i|] [b|] sd au pl pa]; reflexivity.
    + left. destruct s as [[i|] [b|] sd au pl pa]; reflexivity.
  - left. destruct s as [[i|] [b|] sd au pl pa]; reflexivity.
Qed.

Lemma showFailure_speech (s : Widget.State) : speechData (showFailure s) = speechData s.
Proof. destruct s as [[i|] [b|] sd au pl pa]; reflexivity. Qed.

(** The cache is written in one case only: a POST of the episode was
    answered 2xx with JSON that reports success and carries a non-empty
    audio URL.  In every other case, failure included, the cache is left
    as it was. *)
Theorem cache_written_only_on_success (net : Network) (d : EmailData) (w : World) :
  speechData (widget (snd (generateSummary net d w))) = speechData (widget w)
  \/ exists k r result sp,
       summarize net k = Resolved r /\ ok r = true /\ json r = JS.Normal result
       /\ success result = true /\ speech result = Some sp
       /\ JS.truthy (audioFile sp) = true
       /\ speechData (widget (snd (generateSummary net d w))) = Some sp.
Proof.
  destruct (generateSummary_outcome net d w) as (evs & W & E & _ & HW).
  rewrite E. simpl.
  destruct HW as [->|(k & r & result & Hk & Hok & Hj & ->)].
  - left. apply showFailure_speech.
  - destruct (applyResult_speech result (widget w)) as [H|(sp & Hs & Hsp & Ht & H)].
    + left. exact H.
    + right. exists k, r, result, sp. auto 10.
Qed.

(** A 2xx answer to the first POST ends the episode at once, usable or
    not: its JSON is applied when it parses, the failure outcome is shown
    when it does not, and in neither case, nor when the JSON reports
    [success: false], is a second POST sent. *)
Theorem first_answer_is_final (net : Network) (d : EmailData) (w : World)
        (h r : Response) :
  health net = Resolved h -> ok h = true ->
  summarize net 1 = Resolved r -> ok r = true ->
  generateSummary net d w
  = (JS.Normal tt,
     mkWorld (match json r with
              | JS.Normal result => applyResult result (widget w)
              | JS.Throw _ => showFailure (widget w)
              end)
             (currentEmailId w) (inFlight w) (timers w)
             (log w ++ [EvGetHealth; EvPostSummarize 1 (emailContentOf d)]))
  /\ (forall result, json r = JS.Normal result -> success result = false ->
        widget (snd (generateSummary net d w)) = showFailure (widget w)).
Proof.
  intros Hh Ho Hr Hok.
  assert (E : generateSummary net d w
              = (JS.Normal tt,
                 mkWorld (match json r with
                          | JS.Normal result => applyResult result (widget w)
                          | JS.Throw _ => showFailure (widget w)
                          end)
                   (currentEmailId w) (inFlight w) (timers w)
                   (log w ++ [EvGetHealth; EvPostSummarize 1 (emailContentOf d)]))).
  { unfold generateSummary.
    unfold catchM at 1. unfold bindM at 1.
    rewrite (probeServer_up net h w Hh Ho).
    unfold bindM. cbn beta iota delta [negb].
    rewrite (retry_stops_on_success net _ _ r Hr Hok). cbn [response].
    rewrite Hok. unfold lift, onWidget, withWidget, logged.
    cbn [widget currentEmailId inFlight timers log].
    rewrite <- app_assoc.
    destruct (json r); reflexivity. }
  split; [exact E|].
  intros result Hj Hs. rewrite E, Hj. simpl.
  unfold applyResult. rewrite Hs. reflexivity.
Qed.

Lemma first_answer_is_final_witness :
  snd (generateSummary Scenario.netUp Scenario.dataA (initializeWidget Scenario.inbox))
  = mkWorld (applyResult (mkResult true (Some Scenario.speechA) JS.Undefined)
               (widget (initializeWidget Scenario.inbox)))
            (currentEmailId (initializeWidget Scenario.inbox)) [] 0
            [EvGetHealth; EvPostSummarize 1 (emailContentOf Scenario.dataA)].
Proof.
  pose proof (first_answer_is_final Scenario.netUp Scenario.dataA
                (initializeWidget Scenario.inbox) Scenario.okResponse Scenario.okResponse
                eq_refl eq_refl eq_refl eq_refl) as [H _].
  rewrite H. reflexivity.
Defined.



(* ================================================================== *)
(** ** What every reachable widget state satisfies *)
(* ================================================================== *)

Ltac split_state s :=
  let v := fresh "v" in
  destruct s as [[?|] [?|] [[v]|] [?|] [|] [|]];
  try (destruct v as [| |[|? ?]]).

Ltac coh :=
  unfold coherent, hasClass, hasAudioFile in *; simpl in *;
  intuition (try discriminate; try congruence; eauto).

Lemma coherent_created : coherent Widget.created.
Proof. coh. Qed.

Lemma coherent_reset (s : Widget.State) : coherent s -> coherent (resetWidgetState s).
Proof. split_state s; coh. Qed.

Lemma coherent_handlePlayPause (s : Widget.State) : coherent s -> coherent (handlePlayPause s).
Proof. split_state s; coh. Qed.

Lemma coherent_showFailure (s : Widget.State) : coherent s -> coherent (showFailure s).
Proof. split_state s; coh. Qed.

Lemma coherent_applyResult (result : SummaryResult) (s : Widget.State) :
  coherent s -> coherent (applyResult result s).
Proof.
  unfold applyResult.
  destruct (success result); [|apply coherent_showFailure].
  destruct (speech result) as [[v]|].
  - destruct v as [| |[|c u]]; split_state s; coh.
  - split_state s; coh.
Qed.

Lemma coherent_onEnded (s : Widget.State) : coherent s -> coherent (onEnded s).
Proof. split_state s; coh. Qed.

Lemma coherent_onError (s : Widget.State) : coherent s -> coherent (onError s).
Proof. split_state s; coh. Qed.

Lemma coherent_begin (s : Widget.State) :
  coherent s -> hasAudioFile s = false ->
  coherent (withIcon (fun i => setLoading true (setActive true i)) s)
  /\ coherent (withIcon (fun i => setLoading false (setActive false i))
                 (withIcon (fun i => setLoading true (setActive true i)) s)).
Proof. split_state s; coh. Qed.

Lemma coherent_forget (s : Widget.State) :
  coherent s -> coherent (withSpeech None s).
Proof. split_state s; coh. Qed.

Lemma coherent_autoRead (p : Page) (w : World) :
  coherent (widget w) -> coherent (widget (autoReadCurrentEmail p w)).
Proof.
  intros H. unfold autoReadCurrentEmail.
  destruct (isMessageOpen (document p)); simpl; auto.
  destruct (hasAudioFile (widget w)) eqn:Ha; simpl; auto.
  destruct (coherent_begin _ H Ha) as [H1 H2].
  destruct (extract (document p)) as [d|e]; simpl; auto.
  destruct (unreadable d); simpl; auto.
Qed.

Lemma coherent_begin_forget (s : Widget.State) :
  coherent s ->
  coherent (withSpeech None (withIcon (fun i => setLoading true (setActive true i)) s)).
Proof. split_state s; coh. Qed.

Lemma coherent_click (p : Page) (w : World) :
  coherent (widget w) -> coherent (widget (handleIconClick p w)).
Proof.
  intros H. unfold handleIconClick.
  destruct (icon (widget w)) as [i|] eqn:Hi; auto.
  destruct (active i) eqn:Ha.
  - simpl. apply coherent_handlePlayPause, H.
  - destruct (loading i) eqn:Hl; auto.
    apply coherent_autoRead.
    unfold withWidget. cbn [widget].
    apply coherent_begin_forget, H.
Qed.

Lemma coherent_check (p : Page) (w : World) :
  coherent (widget w) -> coherent (widget (checkForEmailChange p w)).
Proof.
  intros H. unfold checkForEmailChange.
  destruct (str_eqb (getCurrentEmailId p) (currentEmailId w)); auto.
  destruct (negb (str_eqb (getCurrentEmailId p) noEmail));
    unfold logged, withTimers, withWidget, withEmailId; cbn [widget];
    apply coherent_reset, H.
Qed.

Lemma coherent_timeout (p : Page) (w : World) :
  coherent (widget w) -> coherent (widget (autoReadTimeout p w)).
Proof.
  intros H. unfold autoReadTimeout.
  destruct (timers w); auto.
  destruct (isMessageOpen (document p)); auto.
  apply coherent_autoRead. exact H.
Qed.

Lemma coherent_settle (i : nat) (net : Network) (w : World) :
  coherent (widget w) -> coherent (widget (settle i net w)).
Proof.
  intros H. unfold settle.
  destruct (nth_error (inFlight w) i) as [d|]; auto.
  destruct (generateSummary_outcome net d
              (withInFlight (firstn i (inFlight w) ++ skipn (S i) (inFlight w)) w))
    as (evs & W & E & _ & HW).
  rewrite E. simpl.
  destruct HW as [->|(k & r & result & _ & _ & _ & ->)]; simpl.
  - apply coherent_showFailure, H.
  - apply coherent_applyResult, H.
Qed.

Lemma coherent_onCanPlay (current allowed : bool) (s : Widget.State) :
  coherent s -> coherent (onCanPlay current allowed s).
Proof. destruct current, allowed; split_state s; coh. Qed.

Lemma coherent_onPlayResolved (s : Widget.State) : coherent s -> coherent (onPlayResolved s).
Proof. split_state s; coh. Qed.

Lemma coherent_onPlayRejected (s : Widget.State) : coherent s -> coherent (onPlayRejected s).
Proof. split_state s; coh. Qed.

Lemma coherent_onTimeUpdate (hasDuration positive : bool) (s : Widget.State) :
  coherent s -> coherent (onTimeUpdate hasDuration positive s).
Proof. destruct hasDuration, positive; split_state s; coh. Qed.

Lemma coherent_fire (w : World) (c : Callback) :
  coherent (widget w) -> coherent (widget (fire w c)).
Proof.
  intros H. destruct c as [[p|p|p|p|i net]| | |current allowed| | |hasDuration positive]; simpl.
  - apply coherent_click, H.
  - apply coherent_check, H.
  - apply coherent_check, H.
  - apply coherent_timeout, H.
  - apply coherent_settle, H.
  - apply coherent_onEnded, H.
  - apply coherent_onError, H.
  - apply coherent_onCanPlay, H.
  - apply coherent_onPlayResolved, H.
  - apply coherent_onPlayRejected, H.
  - apply coherent_onTimeUpdate, H.
Qed.

Lemma coherent_fireAll (w : World) (l : list Callback) :
  coherent (widget w) -> coherent (widget (fireAll w l)).
Proof.
  revert w. induction l as [|c l IH]; intros w H; simpl; auto.
  apply IH, coherent_fire, H.
Qed.

Lemma coherent_initial (p : Page) : coherent (widget (initializeWidget p)).
Proof.
  unfold initializeWidget.
  destruct (isMessageOpen (document p)); apply coherent_created.
Qed.

(** In every state the callbacks can reach from a freshly initialised
    widget, the [canplay] and [timeupdate] listeners and the two ends of
    the [play()] promise included, events of dropped audio elements too:
    the cache is empty or holds a playable URL; a loading icon goes with
    an empty cache; [isPlaying] and [isPaused] are never both set;
    [isPaused] is set only while there is a current audio element; and
    the icon is there. *)
Theorem callbacks_keep_widget_coherent (p : Page) (l : list Callback) :
  let s := widget (fireAll (initializeWidget p) l) in
  (speechData s = None \/ hasAudioFile s = true)
  /\ (hasClass loading s = true -> speechData s = None)
  /\ (isPlaying s = true -> isPaused s = false)
  /\ (isPaused s = true -> exists a, currentAudio s = Some a)
  /\ (exists i, icon s = Some i).
Proof. exact (coherent_fireAll _ l (coherent_initial p)). Qed.

(** [isPlaying] does not tell that the current audio element runs: an
    element dropped by a reset still gets its [canplay], and the [then]
    of its [play()] sets the flag while [window.currentAudio] is null. *)
Example playing_flag_without_current_audio :
  let w := fireAll (initializeWidget Scenario.inbox)
             [Handler (Poll Scenario.pageA); Handler (AutoReadTimeout Scenario.pageA);
              Handler (Settles 0 Scenario.netUp); Handler (Click Scenario.pageA);
              Handler (Poll Scenario.pageB);
              AudioCanPlay false true; AudioPlayResolved] in
  isPlaying (widget w) = true /\ currentAudio (widget w) = None.
Proof. vm_compute. split; reflexivity. Qed.

Lemma callbacks_keep_widget_coherent_witness :
  speechData
    (widget (fireAll (initializeWidget Scenario.inbox)
               [Handler (Poll Scenario.pageA); Handler (Click Scenario.pageA)])) = None.
Proof.
  apply (callbacks_keep_widget_coherent Scenario.inbox
           [Handler (Poll Scenario.pageA); Handler (Click Scenario.pageA)]).
  reflexivity.
Defined.

(** In every reachable state a click on a loading icon changes nothing
    at all: no summary, no request, no timer, no change of the widget. *)
Theorem reachable_click_while_loading_is_ignored (p0 p : Page) (l : list Callback) :
  requesting (fireAll (initializeWidget p0) l) = true ->
  handleIconClick p (fireAll (initializeWidget p0) l) = fireAll (initializeWidget p0) l.
Proof.
  intros H.
  pose proof (coherent_fireAll _ l (coherent_initial p0)) as (_ & Hl & _).
  apply click_while_requesting; [exact H|].
  unfold hasAudioFile. rewrite (Hl H). reflexivity.
Qed.

Lemma reachable_click_while_loading_is_ignored_witness :
  handleIconClick Scenario.pageB
    (fireAll (initializeWidget Scenario.inbox)
       [Handler (Poll Scenario.pageA); Handler (AutoReadTimeout Scenario.pageA)])
  = fireAll (initializeWidget Scenario.inbox)
      [Handler (Poll Scenario.pageA); Handler (AutoReadTimeout Scenario.pageA)].
Proof.
  apply (reachable_click_while_loading_is_ignored Scenario.inbox Scenario.pageB
           [Handler (Poll Scenario.pageA); Handler (AutoReadTimeout Scenario.pageA)]).
  reflexivity.
Defined.

(* ================================================================== *)
(** ** The background script *)
(* ================================================================== *)

Lemma has_add (t u : nat) (s : list nat) :
  Background.has t (Background.add u s) = Nat.eqb t u || Background.has t s.
Proof.
  unfold Background.add, Background.has.
  destruct (existsb (Nat.eqb u) s) eqn:E.
  - destruct (Nat.eqb t u) eqn:Etu; [|reflexivity].
    apply Nat.eqb_eq in Etu. subst. simpl. exact E.
  - rewrite existsb_app. simpl. rewrite orb_false_r. apply orb_comm.
Qed.

Lemma has_delete (t u : nat) (s : list nat) :
  Background.has t (Background.delete u s) = negb (Nat.eqb t u) && Background.has t s.
Proof.
  unfold Background.delete, Background.has.
  induction s as [|x s IH]; simpl.
  - rewrite andb_false_r. reflexivity.
  - destruct (Nat.eqb u x) eqn:Eux; simpl.
    + rewrite IH. apply Nat.eqb_eq in Eux. subst x.
      destruct (Nat.eqb t u) eqn:Etu; simpl; auto.
    + rewrite IH.
      destruct (Nat.eqb t x) eqn:Etx; simpl; [|reflexivity].
      apply Nat.eqb_eq in Etx. subst x.
      rewrite Nat.eqb_sym, Eux. reflexivity.
Qed.

Lemma count_occ_remove_nth (t : nat) (l : list nat) (i : nat) :
  count_occ Nat.eq_dec (firstn i l ++ skipn (S i) l) t <= count_occ Nat.eq_dec l t.
Proof.
  revert i. induction l as [|x l IH]; intros i.
  - destruct i; simpl; lia.
  - destruct i as [|i]; simpl.
    + destruct (Nat.eq_dec x t); lia.
    + specialize (IH i). destruct (Nat.eq_dec x t); simpl in *; lia.
Qed.

Lemma injectUnlessInjected_frame (t u : nat) (st : Background.State) :
  Background.has t (Background.injectedTabs st) = true ->
  Background.injectedTabs (Background.injectUnlessInjected st u) = Background.injectedTabs st
  /\ count_occ Nat.eq_dec (Background.pending (Background.injectUnlessInjected st u)) t
     = count_occ Nat.eq_dec (Background.pending st) t.
Proof.
  intros H. unfold Background.injectUnlessInjected.
  destruct (Background.has u (Background.injectedTabs st)) eqn:E; simpl; auto.
  split; [reflexivity|].
  rewrite count_occ_app. simpl.
  destruct (Nat.eq_dec u t) as [->|]; [congruence|lia].
Qed.

Lemma onInstalled_frame (t : nat) (tabs : list nat) (st : Background.State) :
  Background.has t (Background.injectedTabs st) = true ->
  Background.injectedTabs (Background.onInstalled tabs st) = Background.injectedTabs st
  /\ count_occ Nat.eq_dec (Background.pending (Background.onInstalled tabs st)) t
     = count_occ Nat.eq_dec (Background.pending st) t.
Proof.
  unfold Background.onInstalled.
  revert st. induction tabs as [|u tabs IH]; intros st H; simpl; auto.
  destruct (injectUnlessInjected_frame t u st H) as [Hi Hc].
  destruct (IH (Background.injectUnlessInjected st u)) as [Hi' Hc'].
  - rewrite Hi. exact H.
  - split; congruence.
Qed.

(** A tab that is in [injectedTabs] gets no further [injectWidget] call
    from any event, and stays in the set, until the tab is removed or
    replaced; a CREATE_WIDGET request from it is answered with
    [success: false]. *)
Theorem injected_tab_is_not_injected_again
        (st : Background.State) (t : nat) (e : Background.Event) :
  Background.has t (Background.injectedTabs st) = true ->
  Background.forgets t e = false ->
  Background.has t (Background.injectedTabs (Background.step st e)) = true
  /\ count_occ Nat.eq_dec (Background.pending (Background.step st e)) t
     <= count_occ Nat.eq_dec (Background.pending st) t
  /\ Background.onCreateWidget t st = (st, false).
Proof.
  intros H Hf.
  assert (Hc : Background.onCreateWidget t st = (st, false))
    by (unfold Background.onCreateWidget; rewrite H; reflexivity).
  destruct e as [tabs|u s url|u|a u|u|i ok]; simpl in *.
  - destruct (onInstalled_frame t tabs st H) as [Hi Hp].
    rewrite Hi, Hp. auto.
  - unfold Background.onUpdated.
    destruct s as [s|]; [|auto]. destruct url as [url|]; [|auto].
    destruct (_ && _ && _); [|auto].
    destruct (injectUnlessInjected_frame t u st H) as [Hi Hp].
    rewrite Hi, Hp. auto.
  - rewrite has_delete, H, Hf. auto.
  - rewrite has_delete, H, Hf. auto.
  - unfold Background.onCreateWidget.
    destruct (Background.has u (Background.injectedTabs st)) eqn:E; simpl; [auto|].
    rewrite count_occ_app. simpl.
    destruct (Nat.eq_dec u t) as [->|]; [congruence|].
    split; [exact H|]. split; [lia|exact Hc].
  - unfold Background.settle.
    destruct (nth_error (Background.pending st) i) as [u|]; [|auto].
    destruct ok; simpl.
    + rewrite has_add, H, orb_true_r.
      split; [reflexivity|]. split; [apply count_occ_remove_nth|exact Hc].
    + split; [exact H|]. split; [apply count_occ_remove_nth|exact Hc].
Qed.

Lemma injected_tab_is_not_injected_again_witness :
  Background.has 7
    (Background.injectedTabs
       (Background.step (Background.mkState [7] [] [7])
          (Background.Updated 7 (Some "complete"%string)
             (Some "https://mail.google.com/mail/u/0/"%string)))) = true.
Proof.
  apply (injected_tab_is_not_injected_again (Background.mkState [7] [] [7]) 7
           (Background.Updated 7 (Some "complete"%string)
              (Some "https://mail.google.com/mail/u/0/"%string)));
    reflexivity.
Defined.

(** Calls that have not settled are not counted as injected: two
    'complete' updates of a Gmail tab before the first injection resolves
    start two injections, and when both resolve content.js has been
    executed twice in that tab. *)
Theorem pending_injection_is_repeated (t : nat) (u : string) :
  u <> ""%string -> JS.includes "mail.google.com" u = true ->
  let up := Background.Updated t (Some "complete"%string) (Some u) in
  Background.pending (Background.run Background.initial [up; up]) = [t; t]
  /\ Background.scripts
       (Background.run Background.initial
          [up; up; Background.Settled 0 true; Background.Settled 0 true]) = [t; t]
  /\ Background.injectedTabs
       (Background.run Background.initial
          [up; up; Background.Settled 0 true; Background.Settled 0 true]) = [t].
Proof.
  intros Hu Hi up.
  assert (Ht : Background.truthyUrl (Some u) = true).
  { unfold Background.truthyUrl. destruct (String.eqb u "") eqn:E; [|reflexivity].
    apply String.eqb_eq in E. contradiction. }
  assert (E : forall st, Background.has t (Background.injectedTabs st) = false ->
                         Background.step st up = Background.injectWidget t st).
  { intros st H. subst up. cbn [Background.step]. unfold Background.onUpdated.
    rewrite Ht, Hi. simpl. unfold Background.injectUnlessInjected. rewrite H. reflexivity. }
  unfold Background.run. cbn [fold_left].
  rewrite (E Background.initial eq_refl).
  rewrite (E (Background.injectWidget t Background.initial) eq_refl).
  simpl. unfold Background.settle. simpl.
  unfold Background.add, Background.has. simpl.
  rewrite Nat.eqb_refl. simpl. auto.
Qed.

Lemma pending_injection_is_repeated_witness :
  Background.pending
    (Background.run Background.initial
       [Background.Updated 7 (Some "complete"%string) (Some "https://mail.google.com/"%string);
        Background.Updated 7 (Some "complete"%string) (Some "https://mail.google.com/"%string)])
  = [7; 7].
Proof.
  apply (pending_injection_is_repeated 7 "https://mail.google.com/"%string);
    [discriminate|reflexivity].
Defined.

(** Closing a tab makes its id injectable again, and touches no other
    tab: after [onRemoved] the tab is out of the set, every other tab is
    in it exactly if it was, and the next 'complete' update of a Gmail
    page under that id starts an injection. *)
Theorem removed_tab_is_injected_afresh (st : Background.State) (t : nat) (u : string) :
  u <> ""%string -> JS.includes "mail.google.com" u = true ->
  let st' := Background.onRemoved t st in
  Background.has t (Background.injectedTabs st') = false
  /\ (forall t', t' <> t ->
        Background.has t' (Background.injectedTabs st')
        = Background.has t' (Background.injectedTabs st))
  /\ Background.onUpdated t (Some "complete"%string) (Some u) st'
     = Background.injectWidget t st'.
Proof.
  intros Hu Hi st'.
  assert (H : Background.has t (Background.injectedTabs st') = false).
  { subst st'. simpl. rewrite has_delete, Nat.eqb_refl. reflexivity. }
  split; [exact H|]. split.
  - intros t' Hne. subst st'. simpl. rewrite has_delete.
    apply Nat.eqb_neq in Hne. rewrite Hne. reflexivity.
  - unfold Background.onUpdated, Background.truthyUrl.
    destruct (String.eqb u "") eqn:E; [apply String.eqb_eq in E; contradiction|].
    rewrite Hi. simpl. unfold Background.injectUnlessInjected. rewrite H. reflexivity.
Qed.

Lemma removed_tab_is_injected_afresh_witness :
  Background.has 7 (Background.injectedTabs
                      (Background.onRemoved 7 (Background.mkState [7; 9] [] [7; 9]))) = false.
Proof.
  apply (removed_tab_is_injected_afresh (Background.mkState [7; 9] [] [7; 9]) 7
           "https://mail.google.com/"%string);
    [discriminate|reflexivity].
Defined.

(* ================================================================== *)
(** ** From the page to the request *)
(* ================================================================== *)

Lemma or_empty (y : JS.str) : JS.or (JS.Str y) (JS.Str []) = JS.Str y.
Proof. destruct y; reflexivity. Qed.

Lemma trimmed_nil : trimmed [].
Proof.
  split.
  - discriminate.
  - intros [|x pre] c H; discriminate.
Qed.

Lemma singleSpaced_nil : singleSpaced [].
Proof.
  split; [constructor|].
  intros [|x pre] c d post H; discriminate.
Qed.

Lemma body_chain_clean (s : JS.str) :
  exists b, cleanBody (JS.Str s) = JS.Normal (JS.Str b)
            /\ stripped b /\ trimmed b /\ singleSpaced b.
Proof.
  eexists. split; [reflexivity|].
  split; [|split; [apply trim_trimmed|split]].
  - apply Forall_trim, Forall_replaceRuns; [apply stripped_space|apply stripped_chain].
  - apply Forall_trim, replaceRuns_spaces.
  - intros pre c d post H.
    eapply runsFree_adjacent; [apply body_runsFree|exact H].
Qed.

Lemma extracted_fields_clean (doc : Document) (data : EmailData) :
  extract doc = JS.Normal data ->
  exists s n e b : JS.str,
    data = mkEmailData (JS.Str s) (mkSender (JS.Str n) (JS.Str e)) (JS.Str b)
    /\ stripped s /\ trimmed s
    /\ stripped n /\ trimmed n
    /\ stripped b /\ trimmed b /\ singleSpaced b.
Proof.
  intros H.
  assert (Hs : exists s, getSubject doc = JS.Normal (JS.Str s) /\ stripped s /\ trimmed s).
  { eexists. split; [reflexivity|].
    split; [apply Forall_trim, stripped_chain|apply trim_trimmed]. }
  assert (Hn : exists n e, getSender doc = JS.Normal (mkSender (JS.Str n) (JS.Str e))
                           /\ stripped n /\ trimmed n).
  { unfold getSender.
    destruct (or_Str (optCall (getAttribute "name") (querySelector span_gD doc))
                     (text (querySelector span_gD doc))) as [x ->].
    destruct (or_Str (JS.or (optCall (getAttribute "email") (querySelector span_gD doc))
                            (optCall (getAttribute "data-hovercard-id")
                                     (querySelector span_gD doc))) [])
      as [e ->].
    unfold cleanName. simpl. rewrite !or_empty.
    do 2 eexists. split; [reflexivity|].
    split; [apply Forall_trim, stripped_chain|apply trim_trimmed]. }
  assert (Hb : exists b, getBody doc = JS.Normal (JS.Str b)
                         /\ stripped b /\ trimmed b /\ singleSpaced b).
  { unfold getBody.
    destruct (lastOf (querySelectorAll div_a3s doc)) as [last|].
    - unfold innerTextOf. destruct (innerText last) as [s0|].
      + cbn [JS.invoke JS.bind]. 
        destruct (body_chain_clean (JS.trim s0)) as (b & Hb & ?).
        exists b. cbn [JS.tryCatch]. rewrite Hb. auto.
      + exists []. split; [reflexivity|].
        split; [constructor|]. split; [apply trimmed_nil|apply singleSpaced_nil].
    - exists []. split; [reflexivity|].
      split; [constructor|]. split; [apply trimmed_nil|apply singleSpaced_nil]. }
  destruct Hs as (s & Es & ? & ?).
  destruct Hn as (n & e & En & ? & ?).
  destruct Hb as (b & Eb & ? & ? & ?).
  unfold extract in H. rewrite Es, En, Eb in H. simpl in H.
  injection H as <-.
  exists s, n, e, b. auto 10.
Qed.

Lemma getSender_email (doc : Document) (n e : JS.val) :
  getSender doc = JS.Normal (mkSender n e) ->
  e = JS.or (JS.or (optCall (getAttribute "email") (querySelector span_gD doc))
                   (optCall (getAttribute "data-hovercard-id") (querySelector span_gD doc)))
            (JS.Str []).
Proof.
  unfold getSender.
  destruct (or_Str (optCall (getAttribute "name") (querySelector span_gD doc))
                   (text (querySelector span_gD doc))) as [x ->].
  destruct (or_Str (JS.or (optCall (getAttribute "email") (querySelector span_gD doc))
                          (optCall (getAttribute "data-hovercard-id")
                                   (querySelector span_gD doc))) [])
    as [e0 ->].
  unfold cleanName. simpl. rewrite !or_empty.
  intros [= _ <-]. reflexivity.
Qed.

Lemma sender_email_raw (doc : Document) (data : EmailData) (e : JS.str) :
  extract doc = JS.Normal data -> email (sender data) = JS.Str e ->
  (forall el v, querySelector span_gD doc = Some el ->
                lookupAttr "email" (attributes el) = Some v -> v <> [] -> e = v)
  /\ (forall el v, querySelector span_gD doc = Some el ->
                   (lookupAttr "email" (attributes el) = None
                    \/ lookupAttr "email" (attributes el) = Some []) ->
                   lookupAttr "data-hovercard-id" (attributes el) = Some v -> e = v)
  /\ (querySelector span_gD doc = None -> e = []).
Proof.
  intros H He.
  assert (Hg : exists n, getSender doc = JS.Normal (mkSender n (JS.Str e))).
  { unfold extract in H.
    destruct (getSubject doc) as [s'|]; [|discriminate].
    destruct (getSender doc) as [[n' e']|]; [|discriminate].
    destruct (getBody doc) as [b'|]; [|discriminate].
    simpl in H. injection H as <-. simpl in He. subst e'. eauto. }
  destruct Hg as (n & Hg). apply getSender_email in Hg.
  split; [|split].
  - intros el v Hel Hv Hne. rewrite Hel in Hg. unfold optCall, getAttribute in Hg.
    rewrite Hv in Hg. destruct v as [|c v]; [contradiction|].
    unfold JS.or in Hg. simpl in Hg. congruence.
  - intros el v Hel Hm Hv. rewrite Hel in Hg. unfold optCall, getAttribute in Hg.
    rewrite Hv in Hg.
    destruct Hm as [Hm | Hm]; rewrite Hm in Hg; destruct v as [|c v];
      unfold JS.or in Hg; simpl in Hg; congruence.
  - intros Hel. rewrite Hel in Hg. unfold JS.or in Hg. simpl in Hg. congruence.
Qed.

(** Whatever the page holds, the subject, the sender name and the body
    that the getters return are free of control units, zero-width units
    and non-breaking spaces and have no white space at either end, and
    the body has no white space but single spaces.  The e-mail address is
    not cleaned: it is the [email] attribute of [span.gD] as it stands
    when that is not empty, else the [data-hovercard-id] attribute as it
    stands, and the empty string without the element. *)
Theorem extracted_fields_are_clean (doc : Document) (data : EmailData) :
  extract doc = JS.Normal data ->
  exists s n e b : JS.str,
    data = mkEmailData (JS.Str s) (mkSender (JS.Str n) (JS.Str e)) (JS.Str b)
    /\ stripped s /\ trimmed s
    /\ stripped n /\ trimmed n
    /\ stripped b /\ trimmed b /\ singleSpaced b
    /\ (forall el v, querySelector span_gD doc = Some el ->
                     lookupAttr "email" (attributes el) = Some v -> v <> [] -> e = v)
    /\ (forall el v, querySelector span_gD doc = Some el ->
                     (lookupAttr "email" (attributes el) = None
                      \/ lookupAttr "email" (attributes el) = Some []) ->
                     lookupAttr "data-hovercard-id" (attributes el) = Some v -> e = v)
    /\ (querySelector span_gD doc = None -> e = []).
Proof.
  intros H.
  destruct (extracted_fields_clean doc data H)
    as (s & n & e & b & E & Hs & Hs' & Hn & Hn' & Hb & Hb' & Hb'').
  exists s, n, e, b.
  destruct (sender_email_raw doc data e H) as (H1 & H2 & H3); [rewrite E; reflexivity|].
  repeat (split; [assumption|]). exact H3.
Qed.

Lemma extracted_fields_are_clean_witness :
  exists s n e b : JS.str,
    Scenario.dataA = mkEmailData (JS.Str s) (mkSender (JS.Str n) (JS.Str e)) (JS.Str b)
    /\ stripped s /\ trimmed s /\ stripped n /\ trimmed n
    /\ stripped b /\ trimmed b /\ singleSpaced b
    /\ (forall el v, querySelector span_gD (document Scenario.pageA) = Some el ->
                     lookupAttr "email" (attributes el) = Some v -> v <> [] -> e = v)
    /\ (forall el v, querySelector span_gD (document Scenario.pageA) = Some el ->
                     (lookupAttr "email" (attributes el) = None
                      \/ lookupAttr "email" (attributes el) = Some []) ->
                     lookupAttr "data-hovercard-id" (attributes el) = Some v -> e = v)
    /\ (querySelector span_gD (document Scenario.pageA) = None -> e = []).
Proof.
  apply (extracted_fields_are_clean (document Scenario.pageA) Scenario.dataA).
  reflexivity.
Defined.

(** An address with a line feed in the attribute comes out with it. *)
Example email_attribute_is_not_cleaned :
  getSender [mkElement "span" ["gD"%string]
               [("name"%string, JS.lit "Bob"); ("email"%string, [98; 10; 64; 120]%N)]
               [] (Some [])]
  = JS.Normal (mkSender (JS.Str (JS.lit "Bob")) (JS.Str [98; 10; 64; 120]%N)).
Proof. reflexivity. Qed.

Lemma stripped_no_control (t : JS.str) (c : N) :
  stripped t -> JS.isControl c = true -> count_occ N.eq_dec t c = 0.
Proof.
  unfold stripped. intros H Hc.
  induction H as [|x t (Hx & _) Ht IH]; simpl; auto.
  destruct (N.eq_dec x c) as [->|]; [congruence|exact IH].
Qed.

Lemma literals_stripped :
  stripped (JS.lit "Subject: ") /\ stripped (JS.lit "From: ")
  /\ stripped (JS.lit " <") /\ stripped (JS.lit ">").
Proof.
  unfold stripped.
  repeat split; repeat (apply Forall_cons; [repeat split; reflexivity|]);
    apply Forall_nil.
Qed.

(** The content sent to the backend holds three line feeds of its own,
    one after the subject and two before the body, and beyond them no
    C0/C1 control unit but those of the e-mail attribute: subject, sender
    name and body never bring a line feed, a carriage return, a tab or
    any other control unit into the request; the attribute, which is not
    cleaned, can. *)
Theorem request_line_feeds (doc : Document) (data : EmailData) :
  extract doc = JS.Normal data ->
  forall c, JS.isControl c = true ->
  count_occ N.eq_dec (emailContentOf data) c
  = (if (c =? 10)%N then 3 else 0)
    + count_occ N.eq_dec (JS.toString (email (sender data))) c.
Proof.
  intros H c Hc.
  destruct (extracted_fields_clean doc data H)
    as (s & n & e & b & -> & Hs & _ & Hn & _ & Hb & _).
  destruct literals_stripped as (L1 & L2 & L3 & L4).
  unfold emailContentOf.
  cbn [subject sender name email body JS.toString].
  assert (E10 : count_occ N.eq_dec [10%N] c = if (c =? 10)%N then 1 else 0).
  { cbn [count_occ]. destruct (N.eqb_spec c 10) as [->|Hne].
    - destruct (N.eq_dec 10 10); [reflexivity|congruence].
    - destruct (N.eq_dec 10 c); [congruence|reflexivity]. }
  assert (E20 : count_occ N.eq_dec [10%N; 10%N] c = if (c =? 10)%N then 2 else 0).
  { cbn [count_occ]. destruct (N.eqb_spec c 10) as [->|Hne].
    - destruct (N.eq_dec 10 10); [reflexivity|congruence].
    - destruct (N.eq_dec 10 c); [congruence|reflexivity]. }
  destruct e as [|x e]; cbn [JS.truthy];
    rewrite !count_occ_app, E10, E20;
    rewrite (stripped_no_control s c Hs Hc), (stripped_no_control n c Hn Hc),
            (stripped_no_control b c Hb Hc),
            (stripped_no_control _ c L1 Hc), (stripped_no_control _ c L2 Hc);
    rewrite ?(stripped_no_control _ c L3 Hc), ?(stripped_no_control _ c L4 Hc);
    destruct (c =? 10)%N; simpl; lia.
Qed.

Lemma request_line_feeds_witness :
  count_occ N.eq_dec (emailContentOf Scenario.dataA) 10%N
  = 3 + count_occ N.eq_dec (JS.toString (email (sender Scenario.dataA))) 10%N.
Proof.
  apply (request_line_feeds (document Scenario.pageA) Scenario.dataA eq_refl 10%N eq_refl).
Defined.

(** The status check and the probe of an episode agree: the check
    returns, never throws, sends the one GET, and says [false] exactly
    when an episode against the same backend would stop at its probe and
    send no POST. *)
Theorem status_check_agrees_with_probe (net : Network) (d : EmailData) (w : World) :
  checkServerStatus net w = (JS.Normal (negb (healthFails net)), logged EvGetHealth w)
  /\ (fst (checkServerStatus net w) = JS.Normal false <->
      log (snd (generateSummary net d w)) = log w ++ [EvGetHealth]).
Proof.
  assert (E : checkServerStatus net w
              = (JS.Normal (negb (healthFails net)), logged EvGetHealth w)).
  { unfold checkServerStatus, healthFails, fetchHealth, catchM, bindM, emit, ret, throw.
    destruct (health net) as [r|e]; [destruct (ok r)|]; reflexivity. }
  split; [exact E|].
  rewrite E. simpl.
  destruct (healthFails net) eqn:Hf; simpl.
  - rewrite (generateSummary_failed_probe net d w Hf). simpl. tauto.
  - split; [discriminate|].
    intros H.
    destruct (generateSummary_outcome net d w) as (evs & W & Eg & Hin & _).
    rewrite Eg in H. simpl in H.
    apply app_inv_head in H. injection H as ->.
    unfold healthFails in Hf.
    destruct (health net) as [h|] eqn:Hh; [|discriminate].
    apply negb_false_iff in Hf.
    destruct (retryLoop_outcomes net (emailContentOf d) (logged EvGetHealth w))
      as (evs & Hsnd & Hin' & _).
    rewrite appended_logged in Hsnd.
    assert (Hl : log (snd (generateSummary net d w)) = log w ++ EvGetHealth :: evs).
    { unfold generateSummary.
      unfold catchM at 1. unfold bindM at 1.
      rewrite (probeServer_up net h w Hh Hf).
      unfold bindM. cbn beta iota delta [negb].
      destruct (retryLoop net (emailContentOf d) 3 (mkVars None None) (logged EvGetHealth w))
        as [[v|e] w2]; simpl in Hsnd; subst w2.
      - destruct (response v) as [r|]; [destruct (ok r)|];
          unfold lift, onWidget, throw; try destruct (json r); reflexivity.
      - reflexivity. }
    rewrite Eg in Hl. simpl in Hl. apply app_inv_head in Hl.
    injection Hl as <-.
    simpl in Hin'. destruct Hin' as [H|[H|[H|[]]]]; discriminate.
Qed.
